(** * The upload form controller of [static/script.js]

    A shallow embedding of the two event handlers the script installs on
    [DOMContentLoaded] (the [submit] handler of the upload form and the
    [click] handler of the debug button), together with the parts of the
    browser they talk to: the form fields, the three display regions, the
    alert and console logs, the requests handed to [fetch], the blob URL
    store and the set of suspended [async] activations.

    JavaScript strings are modelled as [string]; a character is an [ascii]. *)

From Stdlib Require Import Ascii String List Bool NArith ZArith Lia.
From stdpp Require Import base option list strings gmap pretty.
Import ListNotations.

Local Open Scope string_scope.

(** ** Regular expressions

    The two literals of the script, [/^\d+$/] and [/\.[^/.]+$/], are built
    from one-character classes, the greedy [+] over a class, and the two
    anchors (neither literal carries a flag, so [$] is the end of input). *)
Module RegExp.

Inductive cclass :=
| Lit (c : ascii)              (* an escaped or plain character *)
| NoneOf (cs : list ascii)     (* [^...] *)
| Digit.                       (* \d *)

Inductive atom :=
| One (c : cclass)
| Plus (c : cclass)            (* c+ , greedy *)
| Bol                          (* ^ *)
| Eol.                         (* $ *)

Definition regexp := list atom.

Definition ascii_in (c : ascii) (cs : list ascii) : bool :=
  existsb (Ascii.eqb c) cs.

Definition is_digit (c : ascii) : bool :=
  let n := N_of_ascii c in ((48 <=? n) && (n <=? 57))%N.

Definition accepts (k : cclass) (c : ascii) : bool :=
  match k with
  | Lit d => Ascii.eqb c d
  | NoneOf cs => negb (ascii_in c cs)
  | Digit => is_digit c
  end.

(** [match_here r bos s]: the text matched by [r] anchored at the front of
    [s], by backtracking; [bos] tells whether the front of [s] is the start
    of the input. *)
Fixpoint match_here (r : regexp) (bos : bool) (s : string) {struct r}
  : option string :=
  match r with
  | [] => Some ""
  | Bol :: r' => if bos then match_here r' bos s else None
  | Eol :: r' => match s with
                 | "" => match_here r' bos s
                 | String _ _ => None
                 end
  | One k :: r' =>
      match s with
      | String c s' =>
          if accepts k c
          then option_map (String c) (match_here r' false s')
          else None
      | "" => None
      end
  | Plus k :: r' =>
      (fix plus (s : string) : option string :=
         match s with
         | String c s' =>
             if accepts k c then
               match plus s' with
               | Some m => Some (String c m)
               | None => option_map (String c) (match_here r' false s')
               end
             else None
         | "" => None
         end) s
  end.

(** The result of a successful search: the text before the match, the
    match, and the text after it. *)
Record found := { before : string; matched : string; after : string }.

Fixpoint drop_string (n : nat) (s : string) : string :=
  match n, s with
  | O, _ => s
  | S n', String _ s' => drop_string n' s'
  | S _, "" => ""
  end.

(** Leftmost match, trying every start position up to the end of input. *)
Fixpoint search (r : regexp) (bos : bool) (s : string) : option found :=
  match match_here r bos s with
  | Some m =>
      Some {| before := ""; matched := m;
              after := drop_string (String.length m) s |}
  | None =>
      match s with
      | String c s' =>
          match search r false s' with
          | Some f => Some {| before := String c (before f);
                              matched := matched f; after := after f |}
          | None => None
          end
      | "" => None
      end
  end.

Definition exec (r : regexp) (s : string) : option found := search r true s.

(** [r.test(s)] *)
Definition test (r : regexp) (s : string) : bool :=
  match exec r s with Some _ => true | None => false end.

(** [s.replace(r, by)] for a pattern without the [g] flag and a replacement
    without [$] patterns: the first match is replaced. *)
Definition replace (s : string) (r : regexp) (by_ : string) : string :=
  match exec r s with
  | Some f => before f ++ by_ ++ after f
  | None => s
  end.

(** [s.match(r) || ""] used as a string operand: a match is an array of one
    element (the patterns have no group), truthy, and converts to its
    element; [null] is falsy. *)
Definition match_or_empty (s : string) (r : regexp) : string :=
  match exec r s with
  | Some f => matched f
  | None => ""
  end.

End RegExp.

Import RegExp.

(** [/^\d+$/] *)
Definition re_numeric : regexp := [Bol; Plus Digit; Eol].

(** [/\.[^/.]+$/] *)
Definition re_extension : regexp :=
  [One (Lit "."); Plus (NoneOf ["/"; "."]%char); Eol].

(** The value assigned to [downloadLink.download] (line 53). *)
Definition download_name (name : string) : string :=
  replace name re_extension "" ++ "_processed" ++ match_or_empty name re_extension.

(** ** JSON values

    What [resp.json()] resolves to.  The numeric type is left open: the
    handlers only test a number for truthiness and print it.  An object lists
    its own properties in enumeration order, each key once. *)
Class Number (num : Type) := {
  num_truthy : num -> bool;       (* ToBoolean: false on zero *)
  num_to_string : num -> string;  (* Number.prototype.toString() *)
  num_finite : num -> bool;       (* isFinite *)
}.

#[local] Unset Elimination Schemes.
Inductive json {num : Type} :=
| JNull
| JBool (b : bool)
| JNum (n : num)
| JStr (s : string)
| JArr (items : list json)
| JObj (props : list (string * json)).
Arguments json : clear implicits.
#[local] Set Elimination Schemes.

Fixpoint string_join (sep : string) (parts : list string) : string :=
  match parts with
  | [] => ""
  | [p] => p
  | p :: rest => p ++ sep ++ string_join sep rest
  end.

Fixpoint sequence_opt {A : Type} (l : list (option A)) : option (list A) :=
  match l with
  | [] => Some []
  | Some a :: l' => option_map (cons a) (sequence_opt l')
  | None :: _ => None
  end.

Fixpoint assoc {V : Type} (k : string) (ps : list (string * V)) : option V :=
  match ps with
  | [] => None
  | (k', v) :: ps' => if String.eqb k k' then Some v else assoc k ps'
  end.

Section Json.
Context {num : Type} `{Number num}.

(** [j.key] on a value that is neither [null] nor [undefined]; [None] is
    [undefined].  Only an object parsed from JSON has an [error] or [detail]
    property: the prototypes of strings, numbers, booleans and arrays carry
    neither name. *)
Definition get_property (j : json num) (key : string) : option (json num) :=
  match j with
  | JObj props => assoc key props
  | _ => None
  end.

(** ToBoolean *)
Definition truthy (j : json num) : bool :=
  match j with
  | JNull => false
  | JBool b => b
  | JNum n => num_truthy n
  | JStr s => negb (String.eqb s "")
  | JArr _ | JObj _ => true
  end.

Definition truthy_opt (v : option (json num)) : bool :=
  match v with
  | Some j => truthy j
  | None => false
  end.

(** ToString, as applied by a template literal; [None] when it throws a
    [TypeError].  An array joins its elements with commas, [null] printing as
    the empty string.  An object without an own [toString] property prints
    through [Object.prototype.toString]; an own [toString] parsed from JSON is
    not callable, and neither method of the conversion then yields a
    primitive. *)
Fixpoint to_string (j : json num) : option string :=
  match j with
  | JNull => Some "null"
  | JBool true => Some "true"
  | JBool false => Some "false"
  | JNum n => Some (num_to_string n)
  | JStr s => Some s
  | JArr items =>
      option_map (string_join ",")
        (sequence_opt
           (map (fun x => match x with
                          | JNull => Some ""
                          | _ => to_string x
                          end) items))
  | JObj props =>
      match assoc "toString" props with
      | Some _ => None
      | None => Some "[object Object]"
      end
  end.

Definition hex_digit (n : N) : ascii :=
  match String.get (N.to_nat n) "0123456789abcdef" with
  | Some c => c
  | None => "0"%char
  end.

Definition quotation_mark : ascii := ascii_of_N 34.
Definition reverse_solidus : ascii := ascii_of_N 92.

(** One character of QuoteJSONString. *)
Definition quote_char (c : ascii) : string :=
  let n := N_of_ascii c in
  let esc (x : ascii) := String reverse_solidus (String x "") in
  if (n =? 8)%N then esc "b"%char
  else if (n =? 9)%N then esc "t"%char
  else if (n =? 10)%N then esc "n"%char
  else if (n =? 12)%N then esc "f"%char
  else if (n =? 13)%N then esc "r"%char
  else if (n =? 34)%N then esc quotation_mark
  else if (n =? 92)%N then esc reverse_solidus
  else if (n <? 32)%N then
    esc "u"%char ++ "00" ++ String (hex_digit (n / 16)) (String (hex_digit (n mod 16)) "")
  else String c "".

Fixpoint quote_chars (s : string) : string :=
  match s with
  | "" => ""
  | String c s' => quote_char c ++ quote_chars s'
  end.

Definition quote_json_string (s : string) : string :=
  String quotation_mark (quote_chars s) ++ String quotation_mark "".

Definition newline : string := String (ascii_of_N 10) "".

(** SerializeJSONProperty with no replacer: [gap] is the indentation unit
    and [indent] the current indentation. *)
Fixpoint serialize (gap indent : string) (j : json num) : string :=
  let wrap (l r : string) (parts : list string) : string :=
    match parts with
    | [] => l ++ r
    | _ =>
        if String.eqb gap "" then l ++ string_join "," parts ++ r
        else
          let inner := indent ++ gap in
          l ++ newline ++ inner
            ++ string_join ("," ++ newline ++ inner) parts
            ++ newline ++ indent ++ r
    end in
  match j with
  | JNull => "null"
  | JBool true => "true"
  | JBool false => "false"
  | JNum n => if num_finite n then num_to_string n else "null"
  | JStr s => quote_json_string s
  | JArr items => wrap "[" "]" (map (serialize gap (indent ++ gap)) items)
  | JObj props =>
      wrap "{" "}"
        (map (fun p : string * json num =>
                let '(k, v) := p in
                quote_json_string k
                  ++ (if String.eqb gap "" then ":" else ": ")
                  ++ serialize gap (indent ++ gap) v) props)
  end.

Fixpoint spaces (n : nat) : string :=
  match n with
  | O => ""
  | S n' => String " " (spaces n')
  end.

(** [JSON.stringify(j)] *)
Definition JSON_stringify (j : json num) : string := serialize "" "" j.

(** [JSON.stringify(j, null, n)] for a numeric [n]: at most ten spaces. *)
Definition JSON_stringify_spaces (j : json num) (n : nat) : string :=
  serialize (spaces (Nat.min 10 n)) "" j.

End Json.

(** Numbers that are integers, for concrete runs. *)
Definition integer_number : Number Z := {|
  num_truthy z := negb (z =? 0)%Z;
  num_to_string z := pretty z;
  num_finite _ := true;
|}.

(** ** The page and the browser around it *)

Record File := { name : string; contents : string }.

(** The bytes of a response body. *)
Definition Blob := string.

(** An entry of a [FormData]: a string, or a file. *)
Inductive entry_value :=
| Text (s : string)
| Attached (f : File).

Definition FormData := list (string * entry_value).

(** [fd.append(name, value)] *)
Definition FormData_append (fd : FormData) (name : string) (v : entry_value)
  : FormData :=
  (fd ++ [(name, v)])%list.

(** What [fetch(url, { method, body })] hands to the network. *)
Record Request := { url : string; method : string; body : FormData }.

Record Response := { status : N }.

(** [resp.ok] *)
Definition ok (resp : Response) : bool :=
  ((200 <=? status resp) && (status resp <=? 299))%N.

Inductive js_error :=
| TypeError
| SyntaxError
| NetworkError.

(** The target of the download link: whatever the page's markup gave it, or
    an object URL, named by its key in the blob URL store. *)
Inductive link_target :=
| Markup (s : string)
| ObjectURL (id : nat).

(** The four inputs the handlers read. *)
Record inputs := {
  product_value : string;          (* productEl.value *)
  version_value : string;          (* versionEl.value *)
  app_id_value : string;           (* appIdEl.value *)
  fileInput_files : list File;     (* fileInput.files *)
}.

(** The parts of the page the handlers write. *)
Record view := {
  spinner_display : string;            (* spinner.style.display *)
  result_display : string;             (* result.style.display *)
  downloadLink_href : link_target;     (* downloadLink.href *)
  downloadLink_download : string;      (* downloadLink.download *)
  debugResponse_textContent : string;  (* debugResponse.textContent *)
}.

(** Where an [async] handler is suspended: the [await] it stopped at, with the
    local state it still needs. *)
Inductive cont :=
| upload_fetch                  (* line 48: await fetch("/upload-file/") *)
| upload_blob                   (* line 50: await resp.blob() *)
| upload_json (msg : string)    (* line 59: await resp.json(), msg from line 57 *)
| debug_fetch                   (* line 95: await fetch("/debug-form/") *)
| debug_json.                   (* line 96: await resp.json() *)

Record world := {
  form : inputs;
  screen : view;
  alerts : list string;            (* alert(...) calls, oldest first *)
  console : list js_error;         (* console.error(...) calls, oldest first *)
  requests : list Request;         (* requests handed to fetch, oldest first *)
  blob_urls : gmap nat Blob;       (* the blob URL store *)
  suspended : gmap nat cont;       (* handler activations awaiting a promise *)
}.

Definition with_form (f : inputs) (w : world) : world :=
  {| form := f; screen := screen w; alerts := alerts w; console := console w;
     requests := requests w; blob_urls := blob_urls w; suspended := suspended w |}.

Definition with_screen (v : view) (w : world) : world :=
  {| form := form w; screen := v; alerts := alerts w; console := console w;
     requests := requests w; blob_urls := blob_urls w; suspended := suspended w |}.

Definition with_alerts (l : list string) (w : world) : world :=
  {| form := form w; screen := screen w; alerts := l; console := console w;
     requests := requests w; blob_urls := blob_urls w; suspended := suspended w |}.

Definition with_console (l : list js_error) (w : world) : world :=
  {| form := form w; screen := screen w; alerts := alerts w; console := l;
     requests := requests w; blob_urls := blob_urls w; suspended := suspended w |}.

Definition with_requests (l : list Request) (w : world) : world :=
  {| form := form w; screen := screen w; alerts := alerts w; console := console w;
     requests := l; blob_urls := blob_urls w; suspended := suspended w |}.

Definition with_blob_urls (m : gmap nat Blob) (w : world) : world :=
  {| form := form w; screen := screen w; alerts := alerts w; console := console w;
     requests := requests w; blob_urls := m; suspended := suspended w |}.

Definition with_suspended (m : gmap nat cont) (w : world) : world :=
  {| form := form w; screen := screen w; alerts := alerts w; console := console w;
     requests := requests w; blob_urls := blob_urls w; suspended := m |}.

(** ** Handler code: state and exceptions *)

Inductive result (A : Type) :=
| Normal (a : A)
| Throw (e : js_error).
Arguments Normal {A} a.
Arguments Throw {A} e.

Definition js (A : Type) : Type := world -> world * result A.

#[export] Instance js_ret : MRet js := fun A a w => (w, Normal a).

#[export] Instance js_bind : MBind js := fun A B f m w =>
  match m w with
  | (w', Normal a) => f a w'
  | (w', Throw e) => (w', Throw e)
  end.

Definition throw {A : Type} (e : js_error) : js A := fun w => (w, Throw e).

Definition read {A : Type} (f : world -> A) : js A := fun w => (w, Normal (f w)).

Definition write (f : world -> world) : js unit := fun w => (f w, Normal tt).

(** [try { body } catch (err) { handler }] *)
Definition try_catch {A : Type} (body : js A) (handler : js_error -> js A) : js A :=
  fun w =>
    match body w with
    | (w', Normal a) => (w', Normal a)
    | (w', Throw e) => handler e w'
    end.

(** How a run of handler code ends: it returned, or it stopped at an
    [await]. *)
Inductive completion :=
| Returned
| Awaiting (k : cont).

(** *** Page operations *)

Definition set_spinner_display (v : string) : js unit :=
  write (fun w => with_screen
    {| spinner_display := v;
       result_display := result_display (screen w);
       downloadLink_href := downloadLink_href (screen w);
       downloadLink_download := downloadLink_download (screen w);
       debugResponse_textContent := debugResponse_textContent (screen w) |} w).

Definition set_result_display (v : string) : js unit :=
  write (fun w => with_screen
    {| spinner_display := spinner_display (screen w);
       result_display := v;
       downloadLink_href := downloadLink_href (screen w);
       downloadLink_download := downloadLink_download (screen w);
       debugResponse_textContent := debugResponse_textContent (screen w) |} w).

Definition set_downloadLink_href (v : link_target) : js unit :=
  write (fun w => with_screen
    {| spinner_display := spinner_display (screen w);
       result_display := result_display (screen w);
       downloadLink_href := v;
       downloadLink_download := downloadLink_download (screen w);
       debugResponse_textContent := debugResponse_textContent (screen w) |} w).

Definition set_downloadLink_download (v : string) : js unit :=
  write (fun w => with_screen
    {| spinner_display := spinner_display (screen w);
       result_display := result_display (screen w);
       downloadLink_href := downloadLink_href (screen w);
       downloadLink_download := v;
       debugResponse_textContent := debugResponse_textContent (screen w) |} w).

Definition set_debugResponse_textContent (v : string) : js unit :=
  write (fun w => with_screen
    {| spinner_display := spinner_display (screen w);
       result_display := result_display (screen w);
       downloadLink_href := downloadLink_href (screen w);
       downloadLink_download := downloadLink_download (screen w);
       debugResponse_textContent := v |} w).

Definition alert (msg : string) : js unit :=
  write (fun w => with_alerts (alerts w ++ [msg])%list w).

Definition console_error (e : js_error) : js unit :=
  write (fun w => with_console (console w ++ [e])%list w).

(** [fetch(url, { method, body })]: the request leaves; the promise it
    returns is awaited by the caller. *)
Definition fetch (u m : string) (fd : FormData) : js unit :=
  write (fun w =>
    with_requests (requests w ++ [{| url := u; method := m; body := fd |}])%list w).

(** [window.URL.createObjectURL(blob)]: a new entry of the blob URL store. *)
Definition createObjectURL (b : Blob) : js link_target :=
  fun w =>
    let id := fresh (dom (blob_urls w)) in
    (with_blob_urls (<[id := b]> (blob_urls w)) w, Normal (ObjectURL id)).

(** [fileInput.files[0]] as a [FormData] value: a missing file would be
    appended as the string of [undefined]. *)
Definition first_file_entry (files : list File) : entry_value :=
  match files with
  | f :: _ => Attached f
  | [] => Text "undefined"
  end.

(** Lines 14-19. *)
Definition showSpinner : js unit := set_spinner_display "block".
Definition hideSpinner : js unit := set_spinner_display "none".

(** ** The two handlers *)

(** How a promise settles. *)
Inductive outcome (A : Type) :=
| Fulfilled (a : A)
| Rejected (e : js_error).
Arguments Fulfilled {A} a.
Arguments Rejected {A} e.

(** [await p] once [p] has settled to [o]. *)
Definition await {A : Type} (o : outcome A) : js A :=
  match o with
  | Fulfilled a => mret a
  | Rejected e => throw e
  end.

(** The three kinds of promise the handlers await. *)
Inductive settlement {num : Type} :=
| FetchSettled (o : outcome Response)      (* fetch(...) *)
| BlobSettled (o : outcome Blob)           (* resp.blob() *)
| JsonSettled (o : outcome (json num)).    (* resp.json() *)
Arguments settlement : clear implicits.

(** The [FormData] both handlers build (lines 40-44 and 87-91). *)
Definition form_data (product version app_id : string) (files : list File)
  : FormData :=
  let fd : FormData := [] in
  let fd := FormData_append fd "product" (Text product) in
  let fd := FormData_append fd "version" (Text version) in
  let fd := FormData_append fd "app_id" (Text app_id) in
  let fd := FormData_append fd "file" (first_file_entry files) in
  fd.

(** [!s] on a string *)
Definition string_falsy (s : string) : bool := String.eqb s "".

(** Lines 47 and 67-72: the [try] around the upload. Code that stops at an
    [await] is still inside the [try]; [catch] and [finally] run when the
    activation ends. *)
Definition upload_try (body : js completion) : js completion :=
  fun w =>
    match body w with
    | (w', Normal (Awaiting k)) => (w', Normal (Awaiting k))
    | (w', Normal Returned) => (hideSpinner ;; mret Returned) w'
    | (w', Throw err) =>
        (console_error err ;;
         alert "Network or unexpected error while uploading." ;;
         hideSpinner ;;
         mret Returned) w'
    end.

(** Lines 94 and 98-103: the [try] around the debug request. *)
Definition debug_try (body : js completion) : js completion :=
  fun w =>
    match body w with
    | (w', Normal (Awaiting k)) => (w', Normal (Awaiting k))
    | (w', Normal Returned) => (hideSpinner ;; mret Returned) w'
    | (w', Throw err) =>
        (console_error err ;;
         set_debugResponse_textContent "Error contacting debug endpoint." ;;
         hideSpinner ;;
         mret Returned) w'
    end.

(** Lines 21-48: the [submit] handler up to its first [await].
    ([e.preventDefault()] keeps the browser from submitting the form itself,
    which leaves the page as it is.) *)
Definition on_submit : js completion :=
  set_debugResponse_textContent "" ;;
  set_result_display "none" ;;
  product ← read (fun w => product_value (form w)) ;
  version ← read (fun w => version_value (form w)) ;
  app_id ← read (fun w => app_id_value (form w)) ;
  files ← read (fun w => fileInput_files (form w)) ;
  if (length files =? 0)%nat then
    alert "Please select a file to upload." ;;
    mret Returned
  else if string_falsy app_id || negb (test re_numeric app_id) then
    alert "Please choose a numeric App ID." ;;
    mret Returned
  else
    let fd := form_data product version app_id files in
    showSpinner ;;
    upload_try
      (fetch "/upload-file/" "POST" fd ;;
       mret (Awaiting upload_fetch)).

(** Lines 76-95: the [click] handler up to its first [await]. *)
Definition on_debug_click : js completion :=
  set_debugResponse_textContent "" ;;
  product ← read (fun w => product_value (form w)) ;
  version ← read (fun w => version_value (form w)) ;
  app_id ← read (fun w => app_id_value (form w)) ;
  files ← read (fun w => fileInput_files (form w)) ;
  if (length files =? 0)%nat then
    alert "Please select a file to upload for debug." ;;
    mret Returned
  else
    let fd := form_data product version app_id files in
    showSpinner ;;
    debug_try
      (fetch "/debug-form/" "POST" fd ;;
       mret (Awaiting debug_fetch)).

Section Handlers.
Context {num : Type} `{Number num}.

(** Lines 49-57, once [fetch] has resolved. *)
Definition upload_after_fetch (resp : Response) : js completion :=
  if ok resp then
    mret (Awaiting upload_blob)
  else
    let msg := "Error: " ++ pretty (status resp) in
    mret (Awaiting (upload_json msg)).

(** Lines 51-55, once [resp.blob()] has resolved. The file name is read from
    the file input at this point; with no file there, reading [name] of
    [undefined] throws. *)
Definition upload_after_blob (blob : Blob) : js completion :=
  url ← createObjectURL blob ;
  set_downloadLink_href url ;;
  files ← read (fun w => fileInput_files (form w)) ;
  match files with
  | f :: _ =>
      let fname := download_name (name f) in
      set_downloadLink_download fname ;;
      set_result_display "block" ;;
      mret Returned
  | [] => throw TypeError
  end.

(** Lines 60-61: the message chosen from the parsed body [j], where [msg] is
    the status message of line 57. A template literal converts its operand
    with ToString, which may throw. *)
Definition choose_message (msg : string) (j : json num) : js string :=
  if truthy j && truthy_opt (get_property j "error") then
    match get_property j "error" with
    | Some e =>
        match to_string e with
        | Some s => mret ("Error: " ++ s)
        | None => throw TypeError
        end
    | None => mret "Error: undefined"
    end
  else if truthy j && truthy_opt (get_property j "detail") then
    match get_property j "detail" with
    | Some d => mret ("Error: " ++ JSON_stringify d)
    | None => mret "Error: undefined"
    end
  else mret msg.

(** Lines 58-65, once [resp.json()] has settled: the inner [try] swallows a
    rejection of [resp.json()] and anything thrown while the message is
    built, leaving [msg] as it was. *)
Definition upload_after_json (msg : string) (o : outcome (json num))
  : js completion :=
  msg' ← try_catch
           (j ← await o ;
            choose_message msg j)
           (fun _ => mret msg) ;
  alert msg' ;;
  mret Returned.

(** Line 96, once [fetch] has resolved: whatever the status, the body is read
    as JSON. *)
Definition debug_after_fetch (resp : Response) : js completion :=
  mret (Awaiting debug_json).

(** Line 97, once [resp.json()] has resolved. *)
Definition debug_after_json (j : json num) : js completion :=
  set_debugResponse_textContent (JSON_stringify_spaces j 2) ;;
  mret Returned.

(** The rest of an activation suspended at [k] when its promise settles to
    [v]; [None] when [v] is not a settlement of the promise awaited there. *)
Definition resume (k : cont) (v : settlement num) : option (js completion) :=
  match k, v with
  | upload_fetch, FetchSettled o =>
      Some (upload_try (resp ← await o ; upload_after_fetch resp))
  | upload_blob, BlobSettled o =>
      Some (upload_try (blob ← await o ; upload_after_blob blob))
  | upload_json msg, JsonSettled o =>
      Some (upload_try (upload_after_json msg o))
  | debug_fetch, FetchSettled o =>
      Some (debug_try (resp ← await o ; debug_after_fetch resp))
  | debug_json, JsonSettled o =>
      Some (debug_try (j ← await o ; debug_after_json j))
  | _, _ => None
  end.

(** ** The event loop *)

Inductive event :=
| Submit                             (* the form is submitted *)
| DebugClick                         (* the debug button is clicked *)
| TypeProduct (s : string)           (* the user edits a field *)
| TypeVersion (s : string)
| TypeAppId (s : string)
| ChooseFiles (files : list File)    (* the user changes the selection *)
| Settle (id : nat) (v : settlement num).  (* an awaited promise settles *)

(** Runs handler code as activation [id]; an activation that stops at an
    [await] is recorded as suspended there. *)
Definition run (id : nat) (code : js completion) (w : world) : world :=
  match code w with
  | (w', Normal (Awaiting k)) => with_suspended (<[id := k]> (suspended w')) w'
  | (w', Normal Returned) => w'
  | (w', Throw _) => w'
  end.

Definition step (w : world) (e : event) : world :=
  match e with
  | Submit => run (fresh (dom (suspended w))) on_submit w
  | DebugClick => run (fresh (dom (suspended w))) on_debug_click w
  | TypeProduct s =>
      with_form {| product_value := s;
                   version_value := version_value (form w);
                   app_id_value := app_id_value (form w);
                   fileInput_files := fileInput_files (form w) |} w
  | TypeVersion s =>
      with_form {| product_value := product_value (form w);
                   version_value := s;
                   app_id_value := app_id_value (form w);
                   fileInput_files := fileInput_files (form w) |} w
  | TypeAppId s =>
      with_form {| product_value := product_value (form w);
                   version_value := version_value (form w);
                   app_id_value := s;
                   fileInput_files := fileInput_files (form w) |} w
  | ChooseFiles files =>
      with_form {| product_value := product_value (form w);
                   version_value := version_value (form w);
                   app_id_value := app_id_value (form w);
                   fileInput_files := files |} w
  | Settle id v =>
      match suspended w !! id with
      | Some k =>
          match resume k v with
          | Some code => run id code (with_suspended (delete id (suspended w)) w)
          | None => w
          end
      | None => w
      end
  end.

Definition steps (w : world) (es : list event) : world := fold_left step es w.

End Handlers.

(** A page at rest: nothing typed or selected, nothing shown, nothing in
    flight. *)
Definition idle_world : world :=
  {| form := {| product_value := ""; version_value := ""; app_id_value := "";
                fileInput_files := [] |};
     screen := {| spinner_display := "none"; result_display := "none";
                  downloadLink_href := Markup "#";
                  downloadLink_download := "";
                  debugResponse_textContent := "" |};
     alerts := []; console := []; requests := [];
     blob_urls := ∅; suspended := ∅ |}.

(** ** Notions used to state the properties *)

(** Splitting a name at its last dot: the part before it, and the part from
    the dot on (empty when the name has no dot). *)
Fixpoint split_at_last_dot (s : string) : string * string :=
  match s with
  | "" => ("", "")
  | String c s' =>
      let (b, e) := split_at_last_dot s' in
      match e with
      | String _ _ => (String c b, e)
      | "" => if Ascii.eqb c "." then ("", s) else (String c b, "")
      end
  end.

(** The file name the specification describes: base, suffix, extension. *)
Definition name_split_at_last_dot (n : string) : string :=
  let (base, ext) := split_at_last_dot n in base ++ "_processed" ++ ext.

Fixpoint has_char (c : ascii) (s : string) : bool :=
  match s with
  | "" => false
  | String d s' => Ascii.eqb d c || has_char c s'
  end.

(** An extension the script recognises: a dot, then at least one character,
    none of them a slash. *)
Definition proper_extension (e : string) : bool :=
  match e with
  | String _ t => negb (String.eqb t "") && negb (has_char "/" t)
  | "" => false
  end.

Definition decimal_digit (c : ascii) : Prop :=
  In c (list_ascii_of_string "0123456789").

Definition only_digits (s : string) : Prop :=
  Forall decimal_digit (list_ascii_of_string s).

(** Every character of [s] is in the class [k], and there is at least one. *)
Fixpoint run_of (k : cclass) (s : string) : bool :=
  match s with
  | "" => false
  | String c "" => accepts k c
  | String c s' => accepts k c && run_of k s'
  end.

Section Schedules.
Context {num : Type}.

(** [e] does not settle the promise that activation [id] awaits. *)
Definition quiet (id : nat) (e : @event num) : bool :=
  match e with
  | Settle id' _ => negb (id' =? id)%nat
  | _ => true
  end.

(** [e] leaves the file selection alone. *)
Definition keeps_files (e : @event num) : bool :=
  match e with
  | ChooseFiles _ => false
  | _ => true
  end.

(** [e] starts one of the two actions. *)
Definition starts_action (e : @event num) : bool :=
  match e with
  | Submit | DebugClick => true
  | _ => false
  end.

End Schedules.

(** A schedule in which no action starts while another is in flight. *)
Fixpoint serial {num : Type} `{Number num} (w : world) (es : list (@event num))
  : bool :=
  match es with
  | [] => true
  | e :: es' =>
      (if starts_action e then bool_decide (suspended w = ∅) else true)
      && serial (step w e) es'
  end.

(** The alert after a response outside 2xx, read off the presence of the
    fields: [error] if the body has it, else [detail] if the body has it,
    else the status code; [None] where the string form of [error] is
    undefined. *)
Definition message_by_presence {num : Type} `{Number num}
    (code : N) (o : outcome (json num)) : option string :=
  match o with
  | Fulfilled j =>
      match get_property j "error" with
      | Some e => option_map (String.append "Error: ") (to_string e)
      | None =>
          match get_property j "detail" with
          | Some d => Some ("Error: " ++ JSON_stringify d)
          | None => Some ("Error: " ++ pretty code)
          end
      end
  | Rejected _ => Some ("Error: " ++ pretty code)
  end.

(** The promises an activation suspended at [k] may still have to await,
    the one it is waiting for included. *)
Definition awaits_left (k : cont) : nat :=
  match k with
  | upload_fetch | debug_fetch => 2
  | upload_blob | upload_json _ | debug_json => 1
  end.

(** The busy indicator is visible exactly while some request is in flight. *)
Definition busy_while_in_flight (w : world) : Prop :=
  spinner_display (screen w) = "block" <-> suspended w <> ∅.

(** The report of a failed upload (lines 67-72): the error on the console,
    the generic alert, the indicator hidden; the regions, the download name
    and the request log as they were. *)
Definition reports_upload_failure (e : js_error) (w w' : world) : Prop :=
  console w' = (console w ++ [e])%list
  /\ alerts w' = (alerts w ++ ["Network or unexpected error while uploading."])%list
  /\ spinner_display (screen w') = "none"
  /\ result_display (screen w') = result_display (screen w)
  /\ downloadLink_download (screen w') = downloadLink_download (screen w)
  /\ debugResponse_textContent (screen w') = debugResponse_textContent (screen w)
  /\ requests w' = requests w.

(** A request as the two handlers build it: a POST to one of the two
    endpoints whose body holds the three text fields and the file, in this
    order. *)
Definition wire_request (r : Request) : Prop :=
  method r = "POST"
  /\ (url r = "/upload-file/" \/ url r = "/debug-form/")
  /\ exists (product version app_id : string) (f : File),
       body r = [("product", Text product); ("version", Text version);
                 ("app_id", Text app_id); ("file", Attached f)].

(** The number of submits and debug clicks among [es]. *)
Fixpoint actions_started {num : Type} (es : list (@event num)) : nat :=
  match es with
  | [] => 0
  | e :: es' => (if starts_action e then 1 else 0) + actions_started es'
  end.

(** An upload whose selection changes to another file before the answer
    comes. *)
Definition reselected_upload : list (@event Z) :=
  [Submit;
   ChooseFiles [{| name := "other.txt"; contents := "def" |}];
   Settle 0 (FetchSettled (Fulfilled {| status := 200 |}));
   Settle 0 (BlobSettled (Fulfilled "xyz"))].

(** ** Concrete runs *)

(** A page with a file chosen and an application id typed. *)
Definition ready_world (file_name : string) : world :=
  {| form := {| product_value := "widget"; version_value := "1.0";
                app_id_value := "12";
                fileInput_files := [{| name := file_name; contents := "abc" |}] |};
     screen := screen idle_world;
     alerts := []; console := []; requests := [];
     blob_urls := ∅; suspended := ∅ |}.

(** An upload answered with status 200 and a body. *)
Definition successful_upload : list (@event Z) :=
  [Submit;
   Settle 0 (FetchSettled (Fulfilled {| status := 200 |}));
   Settle 0 (BlobSettled (Fulfilled "xyz"))].

(** An upload answered with status [code] and the JSON body [j]. *)
Definition refused_upload (code : N) (j : json Z) : list (@event Z) :=
  [Submit;
   Settle 0 (FetchSettled (Fulfilled {| status := code |}));
   Settle 0 (JsonSettled (Fulfilled j))].

(** Both actions started, the debug request failing while the upload is
    still on its way. *)
Definition overlapping_actions : list (@event Z) :=
  [Submit; DebugClick; Settle 1 (FetchSettled (Rejected NetworkError))].

Definition double_quote : string := String quotation_mark "".

(** * Properties *)

(** ** Regular expressions *)

Lemma string_append_nil_r (s : string) : s ++ "" = s.
Proof.
  induction s as [|c s IH]; [reflexivity|].
  change (String c (s ++ "") = String c s). now rewrite IH.
Qed.

Lemma string_append_cons (c : ascii) (s t : string) :
  String c s ++ t = String c (s ++ t).
Proof. reflexivity. Qed.

Lemma string_length_append (s t : string) :
  String.length (s ++ t) = String.length s + String.length t.
Proof.
  induction s as [|c s IH]; [reflexivity|].
  rewrite string_append_cons. cbn [String.length]. now rewrite IH.
Qed.

Lemma drop_string_length (s : string) : drop_string (String.length s) s = "".
Proof. induction s; simpl; auto. Qed.

Lemma run_of_cons (k : cclass) (c : ascii) (s : string) :
  run_of k (String c s) = accepts k c && (String.eqb s "" || run_of k s).
Proof.
  destruct s as [|d s]; simpl.
  - now rewrite andb_true_r.
  - reflexivity.
Qed.

(** [k+$] matches at the front of [s] exactly when [s] is a run of [k], and
    then it matches all of [s]. *)
Lemma match_plus_eol (k : cclass) (s : string) :
  match_here [Plus k; Eol] false s = if run_of k s then Some s else None.
Proof.
  induction s as [|c s IH]; [reflexivity|].
  rewrite run_of_cons.
  change (match_here [Plus k; Eol] false (String c s))
    with (if accepts k c then
            match match_here [Plus k; Eol] false s with
            | Some m => Some (String c m)
            | None => option_map (String c) (match_here [Eol] false s)
            end
          else None).
  rewrite IH.
  destruct (accepts k c); [|reflexivity].
  destruct s as [|d s]; [reflexivity|].
  destruct (run_of k (String d s)); reflexivity.
Qed.

Lemma match_bol_not_at_start (r : regexp) (s : string) :
  match_here (Bol :: r) false s = None.
Proof. reflexivity. Qed.

Lemma search_bol_not_at_start (r : regexp) (s : string) :
  search (Bol :: r) false s = None.
Proof.
  induction s as [|c s IH]; simpl; [reflexivity|].
  now rewrite IH.
Qed.

(** [/^\d+$/] accepts exactly the non-empty runs of digits. *)
Lemma test_re_numeric (s : string) : test re_numeric s = run_of Digit s.
Proof.
  unfold test, exec, re_numeric.
  destruct s as [|c s].
  - reflexivity.
  - cbn [search].
    change (match_here [Bol; Plus Digit; Eol] true (String c s))
      with (if accepts Digit c then
              match match_here [Plus Digit; Eol] false s with
              | Some m => Some (String c m)
              | None => option_map (String c) (match_here [Eol] false s)
              end
            else None).
    rewrite search_bol_not_at_start, match_plus_eol, run_of_cons.
    destruct (accepts Digit c); [|reflexivity].
    destruct s as [|d s]; [reflexivity|].
    destruct (run_of Digit (String d s)); reflexivity.
Qed.

Lemma is_digit_decimal (c : ascii) : is_digit c = true <-> decimal_digit c.
Proof.
  unfold decimal_digit.
  destruct c as [[] [] [] [] [] [] [] []]; vm_compute; split;
    intros Hc; try discriminate; try tauto;
    repeat (destruct Hc as [Hc|Hc]; [discriminate Hc|]); contradiction.
Qed.

Lemma run_of_digits (s : string) :
  run_of Digit s = true <-> s <> "" /\ only_digits s.
Proof.
  unfold only_digits.
  induction s as [|c s IH].
  - simpl. split; [discriminate|]. intros [Hne _]. now elim Hne.
  - rewrite run_of_cons, andb_true_iff, orb_true_iff. cbn [list_ascii_of_string].
    change (accepts Digit c) with (is_digit c).
    rewrite is_digit_decimal, IH. split.
    + intros [Hc Hs]. split; [discriminate|]. constructor; [exact Hc|].
      destruct Hs as [Hs|[_ Hs]]; [|exact Hs].
      apply String.eqb_eq in Hs. subst s. constructor.
    + intros [_ Hall]. inversion Hall as [|x l Hc Hs]; subst. split; [exact Hc|].
      destruct s as [|d s]; [left; reflexivity|].
      right. split; [discriminate | exact Hs].
Qed.

(** The check of line 35 lets through exactly the non-empty strings of
    decimal digits. *)
Lemma app_id_check (s : string) :
  string_falsy s || negb (test re_numeric s) = false <-> s <> "" /\ only_digits s.
Proof.
  rewrite test_re_numeric, <- run_of_digits, orb_false_iff, negb_false_iff.
  unfold string_falsy. split.
  - tauto.
  - intros Hr. split; [|exact Hr].
    destruct s; [discriminate Hr | reflexivity].
Qed.

(** ** The download name *)

Lemma split_at_last_dot_cons (c : ascii) (s : string) :
  split_at_last_dot (String c s) =
    match snd (split_at_last_dot s) with
    | String _ _ => (String c (fst (split_at_last_dot s)), snd (split_at_last_dot s))
    | "" => if Ascii.eqb c "." then ("", String c s)
            else (String c (fst (split_at_last_dot s)), "")
    end.
Proof. cbn [split_at_last_dot]. destruct (split_at_last_dot s) as [b e]. reflexivity. Qed.

(** The two parts make up the name again. *)
Lemma split_at_last_dot_app (s : string) :
  fst (split_at_last_dot s) ++ snd (split_at_last_dot s) = s.
Proof.
  induction s as [|c s IH]; [reflexivity|].
  rewrite split_at_last_dot_cons.
  destruct (snd (split_at_last_dot s)) as [|d t] eqn:Es.
  - destruct (Ascii.eqb c "."); [reflexivity|].
    cbn [fst snd]. rewrite string_append_cons. now rewrite IH.
  - cbn [fst snd]. rewrite string_append_cons. now rewrite IH.
Qed.

(** The second part is empty when the name has no dot, and otherwise starts
    at the last dot. *)
Lemma split_at_last_dot_shape (s : string) :
  match snd (split_at_last_dot s) with
  | "" => has_char "." s = false
  | String d t => d = "."%char /\ has_char "." t = false
  end.
Proof.
  induction s as [|c s IH]; [reflexivity|].
  rewrite split_at_last_dot_cons.
  destruct (snd (split_at_last_dot s)) as [|d t] eqn:Es.
  - destruct (Ascii.eqb_spec c "."%char) as [->|Hc]; cbn.
    + auto.
    + rewrite IH, orb_false_r. now apply Ascii.eqb_neq.
  - exact IH.
Qed.

Lemma run_of_extension_class (t : string) :
  run_of (NoneOf ["/"; "."]%char) t =
    negb (String.eqb t "") && negb (has_char "/" t) && negb (has_char "." t).
Proof.
  induction t as [|c t IH]; [reflexivity|].
  rewrite run_of_cons, IH.
  change (accepts (NoneOf ["/"; "."]%char) c)
    with (negb (Ascii.eqb c "/" || (Ascii.eqb c "." || false))).
  change (has_char "/" (String c t)) with (Ascii.eqb c "/" || has_char "/" t).
  change (has_char "." (String c t)) with (Ascii.eqb c "." || has_char "." t).
  change (String.eqb (String c t) "") with false.
  clear IH. destruct (String.eqb t "") eqn:Et.
  - apply String.eqb_eq in Et. subst t. cbn [has_char]. now destruct (Ascii.eqb c "/"), (Ascii.eqb c ".").
  - now destruct (Ascii.eqb c "/"), (Ascii.eqb c "."),
      (has_char "/" t), (has_char "." t).
Qed.

Lemma match_re_extension (bos : bool) (s : string) :
  match_here re_extension bos s =
    match s with
    | String c t =>
        if Ascii.eqb c "." && run_of (NoneOf ["/"; "."]%char) t then Some s else None
    | "" => None
    end.
Proof.
  destruct s as [|c t]; [reflexivity|].
  change (match_here re_extension bos (String c t))
    with (if Ascii.eqb c "."
          then option_map (String c)
                 (match_here [Plus (NoneOf ["/"; "."]%char); Eol] false t)
          else None).
  rewrite match_plus_eol.
  destruct (Ascii.eqb c "."); [|reflexivity].
  destruct (run_of _ t); reflexivity.
Qed.

(** [/\.[^/.]+$/] finds the part from the last dot on, when that part is a
    proper extension, and nothing otherwise. *)
Lemma search_re_extension (bos : bool) (s : string) :
  search re_extension bos s =
    if proper_extension (snd (split_at_last_dot s))
    then Some {| before := fst (split_at_last_dot s);
                 matched := snd (split_at_last_dot s);
                 after := "" |}
    else None.
Proof.
  revert bos. induction s as [|c s IH]; intros bos; [reflexivity|].
  cbn [search]. rewrite match_re_extension, IH, split_at_last_dot_cons.
  pose proof (split_at_last_dot_shape s) as Hs.
  destruct (snd (split_at_last_dot s)) as [|d t] eqn:Es.
  - (* no dot further on *)
    rewrite run_of_extension_class, Hs.
    destruct (Ascii.eqb_spec c "."%char) as [->|Hc]; cbn.
    + rewrite andb_true_r.
      destruct (negb (String.eqb s "") && negb (has_char "/" s)); [|reflexivity].
      now rewrite drop_string_length.
    + reflexivity.
  - (* a dot further on: [c] cannot start the match *)
    destruct Hs as [-> Ht].
    assert (Hdot : has_char "." s = true).
    { rewrite <- (split_at_last_dot_app s), Es.
      generalize (fst (split_at_last_dot s)) as b.
      induction b as [|x b IHb]; [reflexivity|].
      rewrite string_append_cons. cbn [has_char]. now rewrite IHb, orb_true_r. }
    rewrite run_of_extension_class, Hdot, !andb_false_r. cbn [fst snd].
    destruct (proper_extension (String "." t)); reflexivity.
Qed.

(** The name given to the download, in terms of the split at the last dot. *)
Lemma download_name_split (n : string) :
  download_name n =
    if proper_extension (snd (split_at_last_dot n))
    then fst (split_at_last_dot n) ++ "_processed" ++ snd (split_at_last_dot n)
    else n ++ "_processed".
Proof.
  unfold download_name, replace, match_or_empty, exec.
  rewrite search_re_extension.
  destruct (proper_extension _); cbn.
  - now rewrite string_append_nil_r.
  - reflexivity.
Qed.

(** ** The handlers *)

(** Unfolds handler code down to the record updates, then projects. *)
Ltac js_fields :=
  cbn [with_form with_screen with_alerts with_console with_requests
       with_blob_urls with_suspended
       form screen alerts console requests blob_urls suspended
       product_value version_value app_id_value fileInput_files
       spinner_display result_display downloadLink_href
       downloadLink_download debugResponse_textContent
       fst snd length Nat.eqb].

Ltac js_unfold :=
  cbv [on_submit on_debug_click upload_try debug_try
       upload_after_fetch upload_after_blob upload_after_json
       debug_after_fetch debug_after_json resume run
       mbind js_bind mret js_ret read write throw try_catch await
       alert console_error fetch createObjectURL showSpinner hideSpinner
       set_spinner_display set_result_display set_downloadLink_href
       set_downloadLink_download set_debugResponse_textContent];
  js_fields.

Section Properties.
Context {num : Type} `{Number num}.

Lemma fresh_lookup {A : Type} (m : gmap nat A) : m !! fresh (dom m) = None.
Proof. apply not_elem_of_dom, is_fresh. Qed.

Lemma fresh_insert_subseteq {A : Type} (m : gmap nat A) (a : A) :
  m ⊆ <[fresh (dom m) := a]> m.
Proof. apply insert_subseteq, fresh_lookup. Qed.

(** Building the message changes nothing on the page. *)
Lemma choose_message_state (msg : string) (j : json num) (w : world) :
  fst (choose_message msg j w) = w.
Proof.
  unfold choose_message.
  destruct (truthy j && truthy_opt (get_property j "error")).
  - destruct (get_property j "error") as [e|]; [|reflexivity].
    destruct (to_string e); reflexivity.
  - destruct (truthy j && truthy_opt (get_property j "detail")); [|reflexivity].
    destruct (get_property j "detail"); reflexivity.
Qed.

(** Splits on what the code under the goal's [match] branches on, innermost
    first. *)
Ltac js_cases :=
  repeat (
    js_fields;
    match goal with
    | |- context [choose_message ?m ?j ?w] =>
        let Hs := fresh "Hs" in
        pose proof (choose_message_state m j w) as Hs;
        destruct (choose_message m j w) as [? [?|?]];
        cbn [fst] in Hs; subst
    | |- context [match ?x with _ => _ end] =>
        lazymatch x with
        | context [match _ with _ => _ end] => fail
        | _ => destruct x eqn:?
        end
    end);
  js_fields.

(** Handler code never touches the inputs or the set of suspended
    activations, and only ever adds to the blob URL store. *)
Lemma resume_frame (k : cont) (v : settlement num) (code : js completion)
    (w : world) :
  resume k v = Some code ->
  form (fst (code w)) = form w
  /\ suspended (fst (code w)) = suspended w
  /\ blob_urls w ⊆ blob_urls (fst (code w)).
Proof.
  intros Hr.
  destruct k, v as [o|o|o]; try discriminate Hr; injection Hr as <-;
    destruct o; js_unfold; js_cases; auto.
  all: repeat split; auto using fresh_insert_subseteq.
Qed.

(** C5. With no file selected, neither action sends a request: the handler
    shows its alert and returns, leaving nothing suspended and raising no
    exception. *)
Theorem no_file_no_request (w : world) :
  fileInput_files (form w) = [] ->
  (requests (step w Submit) = requests w
   /\ alerts (step w Submit) = (alerts w ++ ["Please select a file to upload."])%list
   /\ suspended (step w Submit) = suspended w
   /\ snd (on_submit w) = Normal Returned)
  /\
  (requests (step w DebugClick) = requests w
   /\ alerts (step w DebugClick)
      = (alerts w ++ ["Please select a file to upload for debug."])%list
   /\ suspended (step w DebugClick) = suspended w
   /\ snd (on_debug_click w) = Normal Returned).
Proof.
  intros Hf. unfold step. js_unfold. rewrite Hf. js_fields. auto 10.
Qed.

(** C6. With a file selected and an [app_id] that is empty or not made of
    decimal digits only, a submit shows an alert and sends no request. *)
Theorem malformed_app_id_no_request (w : world) (f : File) (rest : list File) :
  fileInput_files (form w) = f :: rest ->
  app_id_value (form w) = "" \/ ~ only_digits (app_id_value (form w)) ->
  requests (step w Submit) = requests w
  /\ alerts (step w Submit) = (alerts w ++ ["Please choose a numeric App ID."])%list
  /\ suspended (step w Submit) = suspended w.
Proof.
  intros Hf Hbad.
  assert (Hc : string_falsy (app_id_value (form w))
               || negb (test re_numeric (app_id_value (form w))) = true).
  { apply not_false_is_true. intros Hc. apply app_id_check in Hc. tauto. }
  unfold step. js_unfold. rewrite Hf. js_fields. rewrite Hc. js_fields. auto.
Qed.

(** C7. With a file selected, a debug click sends its request to
    [/debug-form/] whatever [app_id] holds. *)
Theorem debug_ignores_app_id (w : world) (f : File) (rest : list File) :
  fileInput_files (form w) = f :: rest ->
  requests (step w DebugClick) =
    (requests w ++
     [{| url := "/debug-form/"; method := "POST";
         body := [("product", Text (product_value (form w)));
                  ("version", Text (version_value (form w)));
                  ("app_id", Text (app_id_value (form w)));
                  ("file", Attached f)] |}])%list.
Proof.
  intros Hf. unfold step. js_unfold. rewrite Hf. js_fields. reflexivity.
Qed.

(** C8. A submit that passes both checks sends exactly one request, a POST to
    [/upload-file/] whose body holds the four fields [product], [version],
    [app_id] and [file], the selected file being the value of [file]. *)
Theorem upload_request_shape (w : world) (f : File) (rest : list File) :
  fileInput_files (form w) = f :: rest ->
  app_id_value (form w) <> "" ->
  only_digits (app_id_value (form w)) ->
  requests (step w Submit) =
    (requests w ++
     [{| url := "/upload-file/"; method := "POST";
         body := [("product", Text (product_value (form w)));
                  ("version", Text (version_value (form w)));
                  ("app_id", Text (app_id_value (form w)));
                  ("file", Attached f)] |}])%list.
Proof.
  intros Hf Hne Hd.
  assert (Hc : string_falsy (app_id_value (form w))
               || negb (test re_numeric (app_id_value (form w))) = false).
  { apply app_id_check. auto. }
  unfold step. js_unfold. rewrite Hf. js_fields. rewrite Hc. js_fields.
  reflexivity.
Qed.

(** ** Frame lemmas for the event loop *)

Lemma on_submit_frame (w : world) :
  form (fst (on_submit w)) = form w
  /\ suspended (fst (on_submit w)) = suspended w
  /\ blob_urls (fst (on_submit w)) = blob_urls w.
Proof. js_unfold. js_cases; auto. Qed.

Lemma on_debug_click_frame (w : world) :
  form (fst (on_debug_click w)) = form w
  /\ suspended (fst (on_debug_click w)) = suspended w
  /\ blob_urls (fst (on_debug_click w)) = blob_urls w.
Proof. js_unfold. js_cases; auto. Qed.

(** [run] only records where the activation stopped. *)
Lemma run_fields (id : nat) (code : js completion) (w : world) :
  form (run id code w) = form (fst (code w))
  /\ screen (run id code w) = screen (fst (code w))
  /\ alerts (run id code w) = alerts (fst (code w))
  /\ requests (run id code w) = requests (fst (code w))
  /\ blob_urls (run id code w) = blob_urls (fst (code w))
  /\ suspended (run id code w) =
       match snd (code w) with
       | Normal (Awaiting k) => <[id := k]> (suspended (fst (code w)))
       | _ => suspended (fst (code w))
       end.
Proof.
  unfold run. destruct (code w) as [w' [[|k]|e]]; cbn; auto 10.
Qed.

(** A settlement the activation was waiting for runs the rest of it. *)
Lemma step_settle (w : world) (id : nat) (k : cont) (v : settlement num)
    (code : js completion) :
  suspended w !! id = Some k ->
  resume k v = Some code ->
  step w (Settle id v) = run id code (with_suspended (delete id (suspended w)) w).
Proof. intros Hk Hr. cbn [step]. now rewrite Hk, Hr. Qed.

(** Only the user changes the file selection. *)
Lemma step_keeps_files (w : world) (e : event) :
  keeps_files e = true ->
  fileInput_files (form (step w e)) = fileInput_files (form w).
Proof.
  intros He. destruct e as [| | | | | |id v]; try discriminate He;
    try reflexivity; cbn [step].
  - destruct (run_fields (fresh (dom (suspended w))) on_submit w) as [-> _].
    now destruct (on_submit_frame w) as [-> _].
  - destruct (run_fields (fresh (dom (suspended w))) on_debug_click w) as [-> _].
    now destruct (on_debug_click_frame w) as [-> _].
  - destruct (suspended w !! id) as [k|]; [|reflexivity].
    destruct (resume k v) as [code|] eqn:Hr; [|reflexivity].
    destruct (run_fields id code (with_suspended (delete id (suspended w)) w))
      as [-> _].
    now destruct (resume_frame k v code
                    (with_suspended (delete id (suspended w)) w) Hr) as [-> _].
Qed.

Lemma steps_keep_files (es : list event) (w : world) :
  forallb keeps_files es = true ->
  fileInput_files (form (steps w es)) = fileInput_files (form w).
Proof.
  revert w. induction es as [|e es IH]; intros w Hes; [reflexivity|].
  cbn in Hes. apply andb_true_iff in Hes as [He Hes].
  cbn [steps fold_left]. fold (steps (step w e) es).
  now rewrite IH, step_keeps_files.
Qed.

(** An activation stays where it is suspended until its own promise
    settles. *)
Lemma step_keeps_suspended (w : world) (e : event) (id : nat) (k : cont) :
  suspended w !! id = Some k ->
  quiet id e = true ->
  suspended (step w e) !! id = Some k.
Proof.
  intros Hk He.
  assert (Hfresh : fresh (dom (suspended w)) <> id).
  { intros <-. now rewrite fresh_lookup in Hk. }
  destruct e as [| | | | | |id' v]; try exact Hk; cbn [step].
  - destruct (run_fields (fresh (dom (suspended w))) on_submit w)
      as (_ & _ & _ & _ & _ & ->).
    destruct (on_submit_frame w) as (_ & -> & _).
    destruct (snd (on_submit w)) as [[|k']|]; try exact Hk.
    now rewrite lookup_insert_ne.
  - destruct (run_fields (fresh (dom (suspended w))) on_debug_click w)
      as (_ & _ & _ & _ & _ & ->).
    destruct (on_debug_click_frame w) as (_ & -> & _).
    destruct (snd (on_debug_click w)) as [[|k']|]; try exact Hk.
    now rewrite lookup_insert_ne.
  - cbn in He. apply negb_true_iff, Nat.eqb_neq in He.
    destruct (suspended w !! id') as [k'|]; [|exact Hk].
    destruct (resume k' v) as [code|] eqn:Hr; [|exact Hk].
    destruct (run_fields id' code (with_suspended (delete id' (suspended w)) w))
      as (_ & _ & _ & _ & _ & ->).
    destruct (resume_frame k' v code (with_suspended (delete id' (suspended w)) w) Hr)
      as (_ & -> & _).
    cbn [suspended with_suspended].
    destruct (snd (code _)) as [[|k'']|];
      rewrite ?lookup_insert_ne, lookup_delete_ne by exact He; exact Hk.
Qed.

Lemma steps_keep_suspended (es : list event) (w : world) (id : nat) (k : cont) :
  suspended w !! id = Some k ->
  forallb (quiet id) es = true ->
  suspended (steps w es) !! id = Some k.
Proof.
  revert w. induction es as [|e es IH]; intros w Hk Hes; [exact Hk|].
  cbn in Hes. apply andb_true_iff in Hes as [He Hes].
  cbn [steps fold_left]. fold (steps (step w e) es).
  apply IH; [|exact Hes]. now apply step_keeps_suspended.
Qed.

(** No step takes an entry out of the blob URL store. *)
Lemma step_blob_urls (w : world) (e : event) :
  blob_urls w ⊆ blob_urls (step w e).
Proof.
  destruct e as [| | | | | |id v]; try reflexivity; cbn [step].
  - destruct (run_fields (fresh (dom (suspended w))) on_submit w)
      as (_ & _ & _ & _ & -> & _).
    now destruct (on_submit_frame w) as (_ & _ & ->).
  - destruct (run_fields (fresh (dom (suspended w))) on_debug_click w)
      as (_ & _ & _ & _ & -> & _).
    now destruct (on_debug_click_frame w) as (_ & _ & ->).
  - destruct (suspended w !! id) as [k|]; [|reflexivity].
    destruct (resume k v) as [code|] eqn:Hr; [|reflexivity].
    destruct (run_fields id code (with_suspended (delete id (suspended w)) w))
      as (_ & _ & _ & _ & -> & _).
    now destruct (resume_frame k v code (with_suspended (delete id (suspended w)) w) Hr)
      as (_ & _ & ?).
Qed.

(** ** What each kind of step does to the indicator and the activations *)

(** Starting an action either stops at a check, or shows the indicator,
    sends one request and suspends a new activation. *)
Lemma action_outcome (w : world) (e : event) :
  starts_action e = true ->
  (requests (step w e) = requests w
   /\ spinner_display (screen (step w e)) = spinner_display (screen w)
   /\ suspended (step w e) = suspended w)
  \/
  (exists (r : Request) (k : cont),
     requests (step w e) = (requests w ++ [r])%list
     /\ spinner_display (screen (step w e)) = "block"
     /\ suspended (step w e) = <[fresh (dom (suspended w)) := k]> (suspended w)).
Proof.
  intros He. destruct e; try discriminate He; cbn [step]; js_unfold; js_cases;
    first [ left; now auto | right; eauto ].
Qed.

(** Resuming an activation either ends it, hiding the indicator, or
    suspends it again one [await] further, leaving the indicator alone. It
    sends nothing. *)
Lemma settle_outcome (w : world) (id : nat) (k : cont) (v : settlement num)
    (code : js completion) :
  suspended w !! id = Some k ->
  resume k v = Some code ->
  requests (step w (Settle id v)) = requests w
  /\ ((suspended (step w (Settle id v)) = delete id (suspended w)
       /\ spinner_display (screen (step w (Settle id v))) = "none")
      \/
      (exists k' : cont,
         suspended (step w (Settle id v)) = <[id := k']> (delete id (suspended w))
         /\ spinner_display (screen (step w (Settle id v)))
            = spinner_display (screen w)
         /\ awaits_left k' < awaits_left k)).
Proof.
  intros Hk Hr. rewrite (step_settle w id k v code Hk Hr).
  destruct k, v as [o|o|o]; try discriminate Hr; injection Hr as <-;
    destruct o; js_unfold; js_cases; split; try reflexivity;
    first [ left; split; reflexivity
          | right; eexists; split; [reflexivity|]; split; [reflexivity|];
            cbn [awaits_left]; lia ].
Qed.

(** The state of the indicator when actions do not overlap: nothing in
    flight and the indicator not shown, or one activation and the indicator
    shown. *)
Lemma serial_step (w : world) (e : event) :
  (starts_action e = true -> suspended w = ∅) ->
  (suspended w = ∅ /\ spinner_display (screen w) <> "block")
  \/ (exists id k, suspended w = {[id := k]}
                   /\ spinner_display (screen w) = "block") ->
  (suspended (step w e) = ∅ /\ spinner_display (screen (step w e)) <> "block")
  \/ (exists id k, suspended (step w e) = {[id := k]}
                   /\ spinner_display (screen (step w e)) = "block").
Proof.
  intros Hser Hinv.
  destruct (starts_action e) eqn:He.
  - specialize (Hser eq_refl).
    destruct Hinv as [[_ Hsp]|(id & k & Hs & _)];
      [|rewrite Hs in Hser; now apply map_non_empty_singleton in Hser].
    destruct (action_outcome w e He) as [(_ & Hd & Hs)|(r & k & _ & Hd & Hs)].
    + left. now rewrite Hs, Hd.
    + right. exists (fresh (dom (suspended w))), k. now rewrite Hs, Hser.
  - destruct e as [| | | | | |id v]; try discriminate He; try exact Hinv.
    destruct (suspended w !! id) as [k|] eqn:Hk;
      [|cbn [step]; now rewrite Hk].
    destruct (resume k v) as [code|] eqn:Hr;
      [|cbn [step]; now rewrite Hk, Hr].
    destruct Hinv as [[Hs _]|(id0 & k0 & Hs & Hsp)];
      [rewrite Hs in Hk; discriminate Hk|].
    assert (id = id0) as ->.
    { rewrite Hs in Hk. apply lookup_singleton_Some in Hk. now destruct Hk. }
    destruct (settle_outcome w id0 k v code Hk Hr)
      as (_ & [[Hs' Hd]|(k' & Hs' & Hd & _)]).
    + left. rewrite Hs', Hd, Hs, delete_singleton_eq. split; [reflexivity|discriminate].
    + right. exists id0, k'.
      rewrite Hs', Hd, Hs, delete_singleton_eq, insert_empty. auto.
Qed.

Lemma serial_steps (es : list event) (w : world) :
  serial w es = true ->
  (suspended w = ∅ /\ spinner_display (screen w) <> "block")
  \/ (exists id k, suspended w = {[id := k]}
                   /\ spinner_display (screen w) = "block") ->
  (suspended (steps w es) = ∅ /\ spinner_display (screen (steps w es)) <> "block")
  \/ (exists id k, suspended (steps w es) = {[id := k]}
                   /\ spinner_display (screen (steps w es)) = "block").
Proof.
  revert w. induction es as [|e es IH]; intros w Hser Hinv; [exact Hinv|].
  cbn [serial] in Hser. apply andb_true_iff in Hser as [He Hes].
  cbn [steps fold_left]. fold (steps (step w e) es).
  apply IH; [exact Hes|]. apply serial_step; [|exact Hinv].
  intros Ha. rewrite Ha in He. now apply bool_decide_eq_true in He.
Qed.

(** C3 (amended). An action shows the indicator in the step that sends its
    request. Each settlement an activation was waiting for either ends it,
    hiding the indicator, or moves it to its last [await], so that every
    path of an action ends with the indicator hidden. And while actions do
    not overlap, the indicator is visible exactly while a request is in
    flight. *)
Theorem spinner_follows_single_action (w : world) :
  (forall e : event,
     starts_action e = true ->
     requests (step w e) <> requests w ->
     spinner_display (screen (step w e)) = "block"
     /\ is_Some (suspended (step w e) !! fresh (dom (suspended w))))
  /\
  (forall (id : nat) (k : cont) (v : settlement num),
     suspended w !! id = Some k ->
     is_Some (resume k v) ->
     (suspended (step w (Settle id v)) !! id = None
      /\ spinner_display (screen (step w (Settle id v))) = "none")
     \/
     (exists k' : cont,
        suspended (step w (Settle id v)) !! id = Some k'
        /\ awaits_left k' < awaits_left k))
  /\
  (forall es : list event,
     suspended w = ∅ ->
     spinner_display (screen w) <> "block" ->
     serial w es = true ->
     busy_while_in_flight (steps w es)).
Proof.
  split; [|split].
  - intros e He Hreq.
    destruct (action_outcome w e He) as [(Hr & _)|(r & k & _ & Hd & Hs)];
      [contradiction|].
    split; [exact Hd|]. rewrite Hs, lookup_insert_eq. eauto.
  - intros id k v Hk [code Hr].
    destruct (settle_outcome w id k v code Hk Hr)
      as (_ & [[Hs Hd]|(k' & Hs & _ & Hlt)]).
    + left. rewrite Hs, lookup_delete_eq. auto.
    + right. exists k'. rewrite Hs, lookup_insert_eq. auto.
  - intros es Hs Hd Hser. unfold busy_while_in_flight.
    destruct (serial_steps es w Hser (or_introl (conj Hs Hd)))
      as [[Hs' Hd']|(id & k & Hs' & Hd')].
    + rewrite Hs'. tauto.
    + rewrite Hs', Hd'. split; [|reflexivity].
      intros _ He. now apply map_non_empty_singleton in He.
Qed.

(** C9. No step takes an object URL out of the store, however long the run;
    and when the body of a successful upload arrives, a URL that was not in
    the store is added to it and becomes the target of the download link,
    the entry of the previous target staying where it was. *)
Theorem object_urls_only_grow (w : world) :
  (forall es : list event, blob_urls w ⊆ blob_urls (steps w es))
  /\
  (forall (id : nat) (b : Blob),
     suspended w !! id = Some upload_blob ->
     let w' := step w (Settle id (BlobSettled (Fulfilled b))) in
     let u := fresh (dom (blob_urls w)) in
     blob_urls w !! u = None
     /\ blob_urls w' = <[u := b]> (blob_urls w)
     /\ downloadLink_href (screen w') = ObjectURL u
     /\ size (blob_urls w') = S (size (blob_urls w))).
Proof.
  split.
  - intros es. revert w. induction es as [|e es IH]; intros w; [reflexivity|].
    cbn [steps fold_left]. fold (steps (step w e) es).
    etransitivity; [apply step_blob_urls | apply IH].
  - intros id b Hk w' u.
    assert (Hu : blob_urls w !! u = None) by apply fresh_lookup.
    subst w'.
    rewrite (step_settle w id upload_blob (BlobSettled (Fulfilled b)) _ Hk eq_refl).
    js_unfold. js_cases; fold u; repeat split;
      first [ exact Hu | apply map_size_insert_None; exact Hu ].
Qed.

(** C10. A submit leaves the debug region empty and the result region
    hidden, whichever check it stops at or passes. A debug click leaves the
    debug region empty and the result region as it was, and so does every
    later step of the debug action. *)
Theorem regions_reset (w : world) :
  (debugResponse_textContent (screen (step w Submit)) = ""
   /\ result_display (screen (step w Submit)) = "none")
  /\
  (debugResponse_textContent (screen (step w DebugClick)) = ""
   /\ result_display (screen (step w DebugClick)) = result_display (screen w))
  /\
  (forall (id : nat) (v : settlement num),
     suspended w !! id = Some debug_fetch \/ suspended w !! id = Some debug_json ->
     result_display (screen (step w (Settle id v))) = result_display (screen w)).
Proof.
  split; [|split].
  - cbn [step]. js_unfold. js_cases; auto.
  - cbn [step]. js_unfold. js_cases; auto.
  - intros id v Hk. cbn [step].
    destruct Hk as [Hk|Hk]; rewrite Hk; destruct v as [o|o|o]; try reflexivity;
      destruct o; js_unfold; js_cases; reflexivity.
Qed.

(** ** The course of one action *)

Lemma submit_dispatch (w : world) (f : File) (rest : list File) :
  fileInput_files (form w) = f :: rest ->
  app_id_value (form w) <> "" ->
  only_digits (app_id_value (form w)) ->
  suspended (step w Submit) !! fresh (dom (suspended w)) = Some upload_fetch.
Proof.
  intros Hf Hne Hd.
  assert (Hc : string_falsy (app_id_value (form w))
               || negb (test re_numeric (app_id_value (form w))) = false).
  { apply app_id_check. auto. }
  cbn [step]. js_unfold. rewrite Hf. js_fields. rewrite Hc. js_fields.
  apply lookup_insert_eq.
Qed.

Lemma debug_dispatch (w : world) (f : File) (rest : list File) :
  fileInput_files (form w) = f :: rest ->
  suspended (step w DebugClick) !! fresh (dom (suspended w)) = Some debug_fetch.
Proof.
  intros Hf. cbn [step]. js_unfold. rewrite Hf. js_fields.
  apply lookup_insert_eq.
Qed.

(** A 2xx response: the body is read as a blob. *)
Lemma upload_response_ok (w : world) (id : nat) (resp : Response) :
  suspended w !! id = Some upload_fetch ->
  ok resp = true ->
  suspended (step w (Settle id (FetchSettled (Fulfilled resp)))) !! id
    = Some upload_blob.
Proof.
  intros Hk Hok.
  rewrite (step_settle w id upload_fetch (FetchSettled (Fulfilled resp)) _ Hk eq_refl).
  js_unfold. rewrite Hok. js_fields. apply lookup_insert_eq.
Qed.

(** Any other response: the status message is prepared and the body is read
    as JSON. *)
Lemma upload_response_not_ok (w : world) (id : nat) (resp : Response) :
  suspended w !! id = Some upload_fetch ->
  ok resp = false ->
  suspended (step w (Settle id (FetchSettled (Fulfilled resp)))) !! id
    = Some (upload_json ("Error: " ++ pretty (status resp))).
Proof.
  intros Hk Hok.
  rewrite (step_settle w id upload_fetch (FetchSettled (Fulfilled resp)) _ Hk eq_refl).
  js_unfold. rewrite Hok. js_fields. apply lookup_insert_eq.
Qed.

(** Any response to the debug request: the body is read as JSON. *)
Lemma debug_response (w : world) (id : nat) (resp : Response) :
  suspended w !! id = Some debug_fetch ->
  suspended (step w (Settle id (FetchSettled (Fulfilled resp)))) !! id
    = Some debug_json.
Proof.
  intros Hk.
  rewrite (step_settle w id debug_fetch (FetchSettled (Fulfilled resp)) _ Hk eq_refl).
  js_unfold. apply lookup_insert_eq.
Qed.

(** An object parsed from JSON is truthy. *)
Lemma get_property_truthy (j : json num) (key : string) (e : json num) :
  get_property j key = Some e -> truthy j = true.
Proof. destruct j; cbn; congruence. Qed.

(** C1 (amended). A submit that passes both checks, answered with a 2xx
    status and then a body, while the file selection is left alone, names
    the download after the uploaded file: split at the last dot when that
    dot is followed by at least one character and no slash, and otherwise
    the whole name followed by [_processed]. Events of other activations and
    edits of the text fields may come in between. *)
Theorem download_name_of_upload
    (w : world) (f : File) (rest : list File) (es1 es2 : list event)
    (resp : Response) (b : Blob) :
  fileInput_files (form w) = f :: rest ->
  app_id_value (form w) <> "" ->
  only_digits (app_id_value (form w)) ->
  forallb (quiet (fresh (dom (suspended w)))) es1 = true ->
  forallb keeps_files es1 = true ->
  forallb (quiet (fresh (dom (suspended w)))) es2 = true ->
  forallb keeps_files es2 = true ->
  ok resp = true ->
  let id := fresh (dom (suspended w)) in
  let w1 := steps (step w Submit) es1 in
  let w2 := steps (step w1 (Settle id (FetchSettled (Fulfilled resp)))) es2 in
  let w3 := step w2 (Settle id (BlobSettled (Fulfilled b))) in
  downloadLink_download (screen w3) =
    (if proper_extension (snd (split_at_last_dot (name f)))
     then fst (split_at_last_dot (name f)) ++ "_processed"
            ++ snd (split_at_last_dot (name f))
     else name f ++ "_processed")
  /\ result_display (screen w3) = "block".
Proof.
  intros Hf Hne Hd Hq1 Hf1 Hq2 Hf2 Hok id w1 w2 w3.
  assert (Hk1 : suspended w1 !! id = Some upload_fetch).
  { apply steps_keep_suspended; [|exact Hq1]. now apply (submit_dispatch w f rest). }
  assert (Hfiles1 : fileInput_files (form w1) = f :: rest).
  { unfold w1. now rewrite steps_keep_files, step_keeps_files. }
  assert (Hk2 : suspended w2 !! id = Some upload_blob).
  { apply steps_keep_suspended; [|exact Hq2]. now apply upload_response_ok. }
  assert (Hfiles2 : fileInput_files (form w2) = f :: rest).
  { unfold w2. now rewrite steps_keep_files, step_keeps_files. }
  unfold w3.
  rewrite (step_settle w2 id upload_blob (BlobSettled (Fulfilled b)) _ Hk2 eq_refl).
  js_unfold. rewrite Hfiles2. js_fields.
  split; [apply download_name_split | reflexivity].
Qed.

(** Gives the message of the alert, then settles each case of the order:
    the case at hand by computation, the others by their contradicting
    hypotheses. *)
Ltac priority_case :=
  eexists; split; [reflexivity|];
  repeat split; intros;
  repeat match goal with
    | Ho : Fulfilled _ = Fulfilled _ |- _ => injection Ho as <-
    | Ho : Rejected _ = Fulfilled _ |- _ => discriminate Ho
    | Ho : Fulfilled _ = Rejected _ |- _ => discriminate Ho
    | Hg : get_property ?j ?k = _, Hg' : get_property ?j ?k = _ |- _ =>
        rewrite Hg in Hg'
    | Hg : get_property ?j ?k = _, Ht : context [get_property ?j ?k] |- _ =>
        rewrite Hg in Ht
    | Ht : context [truthy_opt (Some _)] |- _ => cbn [truthy_opt] in Ht
    | Ht : context [truthy_opt None] |- _ => cbn [truthy_opt] in Ht
    end;
  simplify_eq; try reflexivity; congruence.

(** C2 (amended). After a response outside 2xx, the alert is chosen in this
    order: a truthy [error] field gives [Error: ] and its string form (the
    status message if the conversion throws); otherwise a truthy [detail]
    field gives [Error: ] and its JSON text; otherwise, and when the body is
    not JSON, the message is [Error: ] and the status code. *)
Theorem error_message_priority
    (w : world) (id : nat) (resp : Response) (es : list event)
    (o : outcome (json num)) :
  suspended w !! id = Some upload_fetch ->
  ok resp = false ->
  forallb (quiet id) es = true ->
  let w1 := steps (step w (Settle id (FetchSettled (Fulfilled resp)))) es in
  let w2 := step w1 (Settle id (JsonSettled o)) in
  let by_status := "Error: " ++ pretty (status resp) in
  exists m : string,
    alerts w2 = (alerts w1 ++ [m])%list
    /\ (forall j e s,
          o = Fulfilled j -> get_property j "error" = Some e ->
          truthy e = true -> to_string e = Some s ->
          m = "Error: " ++ s)
    /\ (forall j e,
          o = Fulfilled j -> get_property j "error" = Some e ->
          truthy e = true -> to_string e = None ->
          m = by_status)
    /\ (forall j d,
          o = Fulfilled j -> truthy_opt (get_property j "error") = false ->
          get_property j "detail" = Some d -> truthy d = true ->
          m = "Error: " ++ JSON_stringify d)
    /\ (forall j,
          o = Fulfilled j -> truthy_opt (get_property j "error") = false ->
          truthy_opt (get_property j "detail") = false ->
          m = by_status)
    /\ (forall e, o = Rejected e -> m = by_status).
Proof.
  intros Hk Hok Hq w1 w2 by_status.
  assert (Hk1 : suspended w1 !! id = Some (upload_json by_status)).
  { apply steps_keep_suspended; [|exact Hq]. now apply upload_response_not_ok. }
  unfold w2.
  rewrite (step_settle w1 id (upload_json by_status) (JsonSettled o) _ Hk1 eq_refl).
  destruct o as [j|e0].
  - js_unfold. unfold choose_message.
    destruct (get_property j "error") as [e|] eqn:He.
    + rewrite (get_property_truthy j "error" e He). cbn [andb truthy_opt].
      destruct (truthy e) eqn:Hte.
      * destruct (to_string e) as [s|] eqn:Hs; js_unfold; priority_case.
      * destruct (get_property j "detail") as [d|] eqn:Hdt.
        -- cbn [andb truthy_opt].
           destruct (truthy d) eqn:Htd; js_unfold; priority_case.
        -- cbn [andb truthy_opt]. js_unfold. priority_case.
    + rewrite andb_false_r.
      destruct (get_property j "detail") as [d|] eqn:Hdt.
      * rewrite (get_property_truthy j "detail" d Hdt). cbn [andb truthy_opt].
        destruct (truthy d) eqn:Htd; js_unfold; priority_case.
      * rewrite andb_false_r. js_unfold. priority_case.
  - js_unfold. priority_case.
Qed.

(** C4. After a debug click with a file selected, a response of any status
    whose body parses puts the body, printed with an indentation of two
    spaces, in the debug region; a failed request puts the fixed text
    there, and so does a body that fails to parse. *)
Theorem debug_output
    (w : world) (f : File) (rest : list File) (es1 es2 : list event)
    (resp : Response) :
  fileInput_files (form w) = f :: rest ->
  forallb (quiet (fresh (dom (suspended w)))) es1 = true ->
  forallb (quiet (fresh (dom (suspended w)))) es2 = true ->
  let id := fresh (dom (suspended w)) in
  let w1 := steps (step w DebugClick) es1 in
  let w2 := steps (step w1 (Settle id (FetchSettled (Fulfilled resp)))) es2 in
  (forall j : json num,
     debugResponse_textContent
       (screen (step w2 (Settle id (JsonSettled (Fulfilled j)))))
     = JSON_stringify_spaces j 2)
  /\ (forall e : js_error,
        debugResponse_textContent
          (screen (step w1 (Settle id (FetchSettled (Rejected e)))))
        = "Error contacting debug endpoint.")
  /\ (forall e : js_error,
        debugResponse_textContent
          (screen (step w2 (Settle id (JsonSettled (Rejected e)))))
        = "Error contacting debug endpoint.").
Proof.
  intros Hf Hq1 Hq2 id w1 w2.
  assert (Hk1 : suspended w1 !! id = Some debug_fetch).
  { apply steps_keep_suspended; [|exact Hq1]. now apply (debug_dispatch w f rest). }
  assert (Hk2 : suspended w2 !! id = Some debug_json).
  { apply steps_keep_suspended; [|exact Hq2]. now apply debug_response. }
  split; [|split].
  - intros j.
    rewrite (step_settle w2 id debug_json (JsonSettled (Fulfilled j)) _ Hk2 eq_refl).
    reflexivity.
  - intros e.
    rewrite (step_settle w1 id debug_fetch (FetchSettled (Rejected e)) _ Hk1 eq_refl).
    reflexivity.
  - intros e.
    rewrite (step_settle w2 id debug_json (JsonSettled (Rejected e)) _ Hk2 eq_refl).
    reflexivity.
Qed.

(** ** Failure paths of the upload *)

(** X1. When the upload request fails, or the body of a 2xx answer cannot be
    read, the error goes to the console, the generic alert is shown, the
    indicator is hidden and the action ends; no object URL is made and the
    link keeps its target. *)
Theorem upload_failure_report (w : world) (id : nat) (e : js_error) :
  (suspended w !! id = Some upload_fetch ->
   let w' := step w (Settle id (FetchSettled (Rejected e))) in
   reports_upload_failure e w w'
   /\ suspended w' !! id = None
   /\ blob_urls w' = blob_urls w
   /\ downloadLink_href (screen w') = downloadLink_href (screen w))
  /\
  (suspended w !! id = Some upload_blob ->
   let w' := step w (Settle id (BlobSettled (Rejected e))) in
   reports_upload_failure e w w'
   /\ suspended w' !! id = None
   /\ blob_urls w' = blob_urls w
   /\ downloadLink_href (screen w') = downloadLink_href (screen w)).
Proof.
  split; intros Hk w'; subst w'.
  - rewrite (step_settle w id upload_fetch (FetchSettled (Rejected e)) _ Hk eq_refl).
    unfold reports_upload_failure. js_unfold.
    repeat split. apply lookup_delete_eq.
  - rewrite (step_settle w id upload_blob (BlobSettled (Rejected e)) _ Hk eq_refl).
    unfold reports_upload_failure. js_unfold.
    repeat split. apply lookup_delete_eq.
Qed.

(** X2. When the body of a 2xx answer arrives and the file input holds no
    file any more, the object URL has been made and has become the target
    of the link before the name is looked up: the lookup throws, the generic
    alert is shown, and neither the download name nor the result region
    changes. *)
Theorem selection_cleared_in_flight (w : world) (id : nat) (b : Blob) :
  suspended w !! id = Some upload_blob ->
  fileInput_files (form w) = [] ->
  let w' := step w (Settle id (BlobSettled (Fulfilled b))) in
  reports_upload_failure TypeError w w'
  /\ suspended w' !! id = None
  /\ blob_urls w' = <[fresh (dom (blob_urls w)) := b]> (blob_urls w)
  /\ downloadLink_href (screen w') = ObjectURL (fresh (dom (blob_urls w))).
Proof.
  intros Hk Hf w'. subst w'.
  rewrite (step_settle w id upload_blob (BlobSettled (Fulfilled b)) _ Hk eq_refl).
  unfold reports_upload_failure. js_unfold. rewrite Hf. js_fields.
  repeat split. apply lookup_delete_eq.
Qed.

(** X3. The download is named after the file the input holds when the body
    arrives, whatever was selected when the form was submitted: the request
    carries the file of the submit, the name follows the later selection. *)
Theorem download_name_follows_selection
    (w : world) (f g : File) (rest rest' : list File) (es1 es2 : list event)
    (resp : Response) (b : Blob) :
  fileInput_files (form w) = f :: rest ->
  app_id_value (form w) <> "" ->
  only_digits (app_id_value (form w)) ->
  forallb (quiet (fresh (dom (suspended w)))) es1 = true ->
  forallb (quiet (fresh (dom (suspended w)))) es2 = true ->
  ok resp = true ->
  let id := fresh (dom (suspended w)) in
  let w1 := steps (step w Submit) es1 in
  let w2 := steps (step w1 (Settle id (FetchSettled (Fulfilled resp)))) es2 in
  let w3 := step w2 (Settle id (BlobSettled (Fulfilled b))) in
  fileInput_files (form w2) = g :: rest' ->
  requests (step w Submit) =
    (requests w ++
     [{| url := "/upload-file/"; method := "POST";
         body := [("product", Text (product_value (form w)));
                  ("version", Text (version_value (form w)));
                  ("app_id", Text (app_id_value (form w)));
                  ("file", Attached f)] |}])%list
  /\ downloadLink_download (screen w3) = download_name (name g)
  /\ result_display (screen w3) = "block".
Proof.
  intros Hf Hne Hd Hq1 Hq2 Hok id w1 w2 w3 Hg.
  assert (Hc : string_falsy (app_id_value (form w))
               || negb (test re_numeric (app_id_value (form w))) = false).
  { apply app_id_check. auto. }
  assert (Hk1 : suspended w1 !! id = Some upload_fetch).
  { apply steps_keep_suspended; [|exact Hq1]. now apply (submit_dispatch w f rest). }
  assert (Hk2 : suspended w2 !! id = Some upload_blob).
  { apply steps_keep_suspended; [|exact Hq2]. now apply upload_response_ok. }
  split.
  - cbn [step]. js_unfold. rewrite Hf. js_fields. rewrite Hc. js_fields.
    reflexivity.
  - unfold w3.
    rewrite (step_settle w2 id upload_blob (BlobSettled (Fulfilled b)) _ Hk2 eq_refl).
    js_unfold. rewrite Hg. js_fields. split; reflexivity.
Qed.

(** X4. An answer outside 2xx ends the action with exactly one alert, which
    is the status message or starts with [Error: ]; nothing goes to the
    console, even when the body is not JSON; no object URL is made, and the
    link and the regions stay as they were. *)
Theorem refused_upload_report
    (w : world) (id : nat) (msg : string) (o : outcome (json num)) :
  suspended w !! id = Some (upload_json msg) ->
  let w' := step w (Settle id (JsonSettled o)) in
  (exists m : string,
     alerts w' = (alerts w ++ [m])%list
     /\ (m = msg \/ exists s : string, m = "Error: " ++ s))
  /\ console w' = console w
  /\ requests w' = requests w
  /\ blob_urls w' = blob_urls w
  /\ suspended w' !! id = None
  /\ spinner_display (screen w') = "none"
  /\ result_display (screen w') = result_display (screen w)
  /\ downloadLink_href (screen w') = downloadLink_href (screen w)
  /\ downloadLink_download (screen w') = downloadLink_download (screen w)
  /\ debugResponse_textContent (screen w')
     = debugResponse_textContent (screen w).
Proof.
  intros Hk w'. subst w'.
  rewrite (step_settle w id (upload_json msg) (JsonSettled o) _ Hk eq_refl).
  destruct o as [j|e].
  - js_unfold. unfold choose_message.
    destruct (truthy j && truthy_opt (get_property j "error")).
    + destruct (get_property j "error") as [x|].
      * destruct (to_string x) as [s|]; js_unfold;
          (split; [eexists; split; [reflexivity|]; first [left; reflexivity | right; eexists; reflexivity]|]);
          repeat split; apply lookup_delete_eq.
      * js_unfold. (split; [eexists; split; [reflexivity|]; first [left; reflexivity | right; eexists; reflexivity]|]).
        repeat split. apply lookup_delete_eq.
    + destruct (truthy j && truthy_opt (get_property j "detail")).
      * destruct (get_property j "detail") as [d|]; js_unfold;
          (split; [eexists; split; [reflexivity|]; first [left; reflexivity | right; eexists; reflexivity]|]);
          repeat split; apply lookup_delete_eq.
      * js_unfold. (split; [eexists; split; [reflexivity|]; first [left; reflexivity | right; eexists; reflexivity]|]).
        repeat split. apply lookup_delete_eq.
  - js_unfold. (split; [eexists; split; [reflexivity|]; first [left; reflexivity | right; eexists; reflexivity]|]).
    repeat split. apply lookup_delete_eq.
Qed.

(** ** What the handlers never do *)

(** X5. Nothing escapes the handlers: the code of a submit, of a debug
    click, and of every resumption ends normally, whatever was thrown
    inside its [try]. *)
Theorem handlers_never_throw (w : world) :
  (exists c : completion, snd (on_submit w) = Normal c)
  /\ (exists c : completion, snd (on_debug_click w) = Normal c)
  /\ (forall (k : cont) (v : settlement num) (code : js completion),
        resume k v = Some code ->
        exists c : completion, snd (code w) = Normal c).
Proof.
  split; [|split].
  - js_unfold. js_cases; eauto.
  - js_unfold. js_cases; eauto.
  - intros k v code Hr.
    destruct k, v as [o|o|o]; try discriminate Hr; injection Hr as <-;
      destruct o; js_unfold; js_cases; eauto.
Qed.

(** What a step adds to the request log: nothing, or one well-formed
    request when the step starts an action. *)
Lemma step_requests (w : world) (e : event) :
  requests (step w e) = requests w
  \/ (starts_action e = true
      /\ exists r : Request,
           requests (step w e) = (requests w ++ [r])%list /\ wire_request r).
Proof.
  destruct e as [| | | | | |id v]; try (left; reflexivity).
  - cbn [step]. js_unfold.
    destruct (fileInput_files (form w)) as [|f rest];
      js_cases; try (left; reflexivity).
    right. split; [reflexivity|]. eexists. split; [reflexivity|].
    split; [reflexivity|]. split; [left; reflexivity|].
    do 4 eexists. reflexivity.
  - cbn [step]. js_unfold.
    destruct (fileInput_files (form w)) as [|f rest];
      js_cases; try (left; reflexivity).
    right. split; [reflexivity|]. eexists. split; [reflexivity|].
    split; [reflexivity|]. split; [right; reflexivity|].
    do 4 eexists. reflexivity.
  - left. destruct (suspended w !! id) as [k|] eqn:Hk;
      [|cbn [step]; now rewrite Hk].
    destruct (resume k v) as [code|] eqn:Hr;
      [|cbn [step]; now rewrite Hk, Hr].
    now destruct (settle_outcome w id k v code Hk Hr) as [-> _].
Qed.

(** X6. Over any run, the request log only grows at its end, by at most one
    request per submit or debug click (nothing is sent again), and each
    request added is a POST to one of the two endpoints carrying the four
    fields. *)
Theorem one_request_per_action (es : list event) (w : world) :
  exists rs : list Request,
    requests (steps w es) = (requests w ++ rs)%list
    /\ length rs <= actions_started es
    /\ Forall wire_request rs.
Proof.
  revert w. induction es as [|e es IH]; intros w.
  - exists []. cbn. rewrite app_nil_r. auto.
  - cbn [steps fold_left]. fold (steps (step w e) es).
    destruct (IH (step w e)) as (rs & Hrs & Hlen & Hwf).
    destruct (step_requests w e) as [Hsame|(He & r & Hr & Hwr)].
    + exists rs. rewrite Hrs, Hsame. cbn [actions_started].
      repeat split; [lia | exact Hwf].
    + exists (r :: rs). rewrite Hrs, Hr, <- app_assoc. cbn [actions_started].
      rewrite He. repeat split; [cbn; lia | now constructor].
Qed.

(** X7. The two actions keep to their own regions once under way: no step
    of a debug action shows an alert, makes an object URL or touches the
    download link, and no step of an upload writes to the debug region. *)
Theorem actions_keep_to_their_regions
    (w : world) (id : nat) (v : settlement num) :
  (suspended w !! id = Some debug_fetch \/ suspended w !! id = Some debug_json ->
   let w' := step w (Settle id v) in
   alerts w' = alerts w
   /\ blob_urls w' = blob_urls w
   /\ downloadLink_href (screen w') = downloadLink_href (screen w)
   /\ downloadLink_download (screen w') = downloadLink_download (screen w))
  /\
  (suspended w !! id = Some upload_fetch
   \/ suspended w !! id = Some upload_blob
   \/ (exists msg : string, suspended w !! id = Some (upload_json msg)) ->
   debugResponse_textContent (screen (step w (Settle id v)))
   = debugResponse_textContent (screen w)).
Proof.
  split.
  - intros Hk w'. subst w'. cbn [step].
    destruct Hk as [Hk|Hk]; rewrite Hk; destruct v as [o|o|o]; auto;
      destruct o; js_unfold; auto.
  - intros Hk. cbn [step].
    destruct Hk as [Hk|[Hk|[msg Hk]]]; rewrite Hk; destruct v as [o|o|o];
      try reflexivity; destruct o; js_unfold; js_cases; reflexivity.
Qed.

(** X8. The result region comes into view in one way only: the body of a
    2xx answer arrives while the file input holds a file. *)
Theorem result_shown_only_by_success (w : world) (e : event) :
  result_display (screen (step w e)) = "block" ->
  result_display (screen w) <> "block" ->
  exists (id : nat) (b : Blob) (f : File) (rest : list File),
    e = Settle id (BlobSettled (Fulfilled b))
    /\ suspended w !! id = Some upload_blob
    /\ fileInput_files (form w) = f :: rest.
Proof.
  intros Hshown Hnot.
  destruct e as [| | | | | |id v]; try (now elim Hnot).
  - exfalso. revert Hshown. cbn [step]. js_unfold. js_cases; discriminate.
  - exfalso. revert Hshown. cbn [step]. js_unfold. js_cases; exact Hnot.
  - revert Hshown. cbn [step].
    destruct (suspended w !! id) as [k|] eqn:Hk; [|intros; now elim Hnot].
    destruct k, v as [o|o|o]; cbn [resume]; try (intros; now elim Hnot);
      destruct o; js_unfold; js_cases;
      try (intros; now elim Hnot).
    intros _. eauto 10.
Qed.

(** X9. A step of a handler leaves the four inputs as they are: nothing
    clears or rewrites the form, whether the action succeeds or fails. *)
Theorem form_untouched (w : world) (e : event) :
  starts_action e = true \/ (exists id v, e = Settle id v) ->
  form (step w e) = form w.
Proof.
  intros [He|(id & v & ->)].
  - destruct e; try discriminate He; cbn [step].
    + destruct (run_fields (fresh (dom (suspended w))) on_submit w) as [-> _].
      now destruct (on_submit_frame w) as [-> _].
    + destruct (run_fields (fresh (dom (suspended w))) on_debug_click w) as [-> _].
      now destruct (on_debug_click_frame w) as [-> _].
  - cbn [step]. destruct (suspended w !! id) as [k|]; [|reflexivity].
    destruct (resume k v) as [code|] eqn:Hr; [|reflexivity].
    destruct (run_fields id code (with_suspended (delete id (suspended w)) w))
      as [-> _].
    now destruct (resume_frame k v code
                    (with_suspended (delete id (suspended w)) w) Hr) as [-> _].
Qed.

(** X10. A submit or debug click that sends nothing has stopped at a check:
    it shows exactly one alert and leaves the indicator, the activations in
    flight, the console, the object URLs and the download link as they
    were. *)
Theorem stopped_action_effects (w : world) (e : event) :
  starts_action e = true ->
  requests (step w e) = requests w ->
  (exists m : string, alerts (step w e) = (alerts w ++ [m])%list)
  /\ spinner_display (screen (step w e)) = spinner_display (screen w)
  /\ suspended (step w e) = suspended w
  /\ console (step w e) = console w
  /\ blob_urls (step w e) = blob_urls w
  /\ downloadLink_href (screen (step w e)) = downloadLink_href (screen w)
  /\ downloadLink_download (screen (step w e))
     = downloadLink_download (screen w).
Proof.
  intros He. destruct e; try discriminate He; cbn [step]; js_unfold; js_cases;
    intros Hreq;
    try (apply (f_equal (@length Request)) in Hreq;
         rewrite length_app in Hreq; cbn in Hreq; lia);
    (split; [eexists; reflexivity|]); auto 10.
Qed.

(** X11. The download name is the original name with [_processed] put in at
    one place: no character of the original is lost, the name grows by ten
    characters, and it never equals the original. *)
Theorem download_name_keeps_original (n : string) :
  (exists b e : string, n = b ++ e /\ download_name n = b ++ "_processed" ++ e)
  /\ String.length (download_name n) = String.length n + 10
  /\ download_name n <> n.
Proof.
  assert (Hdec : exists b e : string,
             n = b ++ e /\ download_name n = b ++ "_processed" ++ e).
  { rewrite download_name_split.
    destruct (proper_extension (snd (split_at_last_dot n))).
    - exists (fst (split_at_last_dot n)), (snd (split_at_last_dot n)).
      split; [symmetry; apply split_at_last_dot_app | reflexivity].
    - exists n, "". split; [now rewrite string_append_nil_r | reflexivity]. }
  assert (Hlen : String.length (download_name n) = String.length n + 10).
  { destruct Hdec as (b & e & -> & ->).
    rewrite !string_length_append. cbn. lia. }
  split; [exact Hdec|]. split; [exact Hlen|].
  intros Heq. rewrite Heq in Hlen. lia.
Qed.

End Properties.

(** ** Concrete runs *)

#[local] Existing Instance integer_number.

Ltac digits :=
  repeat (constructor; [unfold decimal_digit; cbn; tauto|]); constructor.

(** *** The download name *)

Example upload_of_trailing_dot :
  downloadLink_download (screen (steps (ready_world "notes.") successful_upload))
    = "notes._processed".
Proof. reflexivity. Qed.

Example split_of_trailing_dot :
  name_split_at_last_dot "notes." = "notes_processed.".
Proof. reflexivity. Qed.

(** C1, as stated, fails on a name that ends in a dot: the script keeps the
    dot before the suffix, where the split at the last dot puts it after. *)
Lemma trailing_dot_counterexample :
  downloadLink_download (screen (steps (ready_world "notes.") successful_upload))
    <> name_split_at_last_dot "notes.".
Proof. vm_compute. discriminate. Qed.

Lemma download_name_of_upload_witness :
  downloadLink_download (screen (steps (ready_world "data.csv") successful_upload))
    = "data_processed.csv".
Proof.
  refine (proj1 (download_name_of_upload (ready_world "data.csv")
                   {| name := "data.csv"; contents := "abc" |} [] [] []
                   {| status := 200 |} "xyz" eq_refl _ _ eq_refl eq_refl
                   eq_refl eq_refl eq_refl)).
  - discriminate.
  - digits.
Defined.

Example download_name_csv : download_name "data.csv" = "data_processed.csv".
Proof. reflexivity. Qed.

Example download_name_two_dots :
  download_name "archive.tar.gz" = "archive.tar_processed.gz".
Proof. reflexivity. Qed.

Example download_name_no_dot : download_name "README" = "README_processed".
Proof. reflexivity. Qed.

Example download_name_hidden_file : download_name ".env" = "_processed.env".
Proof. reflexivity. Qed.

(** *** The error message *)

Example refused_with_error :
  alerts (steps (ready_world "data.csv")
            (refused_upload 400 (JObj [("error", JStr "bad input")])))
    = ["Error: bad input"].
Proof. reflexivity. Qed.

Example refused_with_detail :
  alerts (steps (ready_world "data.csv")
            (refused_upload 422
               (JObj [("detail", JObj [("field", JStr "version")])])))
    = ["Error: {" ++ double_quote ++ "field" ++ double_quote ++ ":"
         ++ double_quote ++ "version" ++ double_quote ++ "}"].
Proof. reflexivity. Qed.

Example refused_with_unparsable_body :
  alerts (steps (ready_world "data.csv")
            [Submit;
             Settle 0 (FetchSettled (Fulfilled {| status := 502 |}));
             Settle 0 (JsonSettled (Rejected SyntaxError))])
    = ["Error: 502"].
Proof. reflexivity. Qed.

Example refused_with_unprintable_error :
  alerts (steps (ready_world "data.csv")
            (refused_upload 400
               (JObj [("error", JObj [("toString", JNull)])])))
    = ["Error: 400"].
Proof. reflexivity. Qed.

Example presence_of_empty_error :
  message_by_presence 400 (Fulfilled (JObj [("error", JStr "")]))
    = Some "Error: ".
Proof. reflexivity. Qed.

(** C2, as stated, fails on a body whose [error] field is the empty string:
    the field is there, and yet the alert shows the status code. *)
Lemma empty_error_counterexample :
  Some (alerts (steps (ready_world "data.csv")
                  (refused_upload 400 (JObj [("error", JStr "")]))))
    <> option_map (fun m => [m])
         (message_by_presence 400 (Fulfilled (JObj [("error", JStr "")]))).
Proof. vm_compute. discriminate. Qed.

Lemma error_message_priority_witness :
  alerts (steps (ready_world "data.csv")
            (refused_upload 400 (JObj [("error", JStr "bad input")])))
    = ["Error: bad input"].
Proof.
  destruct (error_message_priority
              (step (ready_world "data.csv") Submit) 0 {| status := 400 |} []
              (Fulfilled (JObj [("error", JStr "bad input")]))
              eq_refl eq_refl eq_refl)
    as (m & Halerts & Herror & _).
  rewrite (Herror _ _ _ eq_refl eq_refl eq_refl eq_refl) in Halerts.
  exact Halerts.
Defined.

(** *** The busy indicator *)

(** C3, as stated, fails when the two actions overlap: the debug action ends
    first and hides the indicator while the upload is still in flight. *)
Lemma overlapping_actions_counterexample :
  ~ busy_while_in_flight (steps (ready_world "data.csv") overlapping_actions).
Proof.
  unfold busy_while_in_flight. intros [_ Hshown].
  assert (Hhidden : spinner_display
                      (screen (steps (ready_world "data.csv") overlapping_actions))
                    = "none") by reflexivity.
  rewrite Hhidden in Hshown.
  assert (Hnone : "none" = "block"); [|discriminate Hnone].
  apply Hshown. intros Hempty.
  assert (Hup : suspended (steps (ready_world "data.csv") overlapping_actions) !! 0
                = Some upload_fetch) by reflexivity.
  rewrite Hempty in Hup. discriminate Hup.
Qed.

Lemma spinner_follows_single_action_witness :
  busy_while_in_flight (steps (ready_world "data.csv") successful_upload).
Proof.
  apply (proj2 (proj2 (spinner_follows_single_action (ready_world "data.csv")))).
  - reflexivity.
  - discriminate.
  - vm_compute. reflexivity.
Defined.

(** *** The debug action *)

Lemma debug_output_witness :
  debugResponse_textContent
    (screen (steps (ready_world "data.csv")
               [DebugClick;
                Settle 0 (FetchSettled (Fulfilled {| status := 500 |}));
                Settle 0 (JsonSettled (Fulfilled (JArr [JNum 1%Z; JNull])))]))
    = "[" ++ newline ++ "  1," ++ newline ++ "  null" ++ newline ++ "]".
Proof.
  exact (proj1 (debug_output (ready_world "data.csv")
                  {| name := "data.csv"; contents := "abc" |} [] [] []
                  {| status := 500 |} eq_refl eq_refl eq_refl)
           (JArr [JNum 1%Z; JNull])).
Defined.

(** *** The checks *)

Lemma no_file_no_request_witness :
  requests (step idle_world Submit) = []
  /\ requests (step idle_world DebugClick) = [].
Proof.
  destruct (no_file_no_request idle_world eq_refl)
    as [(Hsubmit & _) (Hdebug & _)].
  split; [exact Hsubmit | exact Hdebug].
Defined.

Lemma malformed_app_id_no_request_witness :
  requests (step (step (ready_world "data.csv") (TypeAppId "12a")) Submit) = [].
Proof.
  refine (proj1 (malformed_app_id_no_request
                   (step (ready_world "data.csv") (TypeAppId "12a"))
                   {| name := "data.csv"; contents := "abc" |} [] eq_refl _)).
  right. intros Hd. inversion Hd as [|? ? _ Hd1]. inversion Hd1 as [|? ? _ Hd2].
  inversion Hd2 as [|? ? Ha _]. unfold decimal_digit in Ha. cbn in Ha.
  repeat (destruct Ha as [Ha|Ha]; [discriminate Ha|]). exact Ha.
Defined.

Lemma debug_ignores_app_id_witness :
  map url (requests (step (step (ready_world "data.csv") (TypeAppId "12a"))
                       DebugClick))
    = ["/debug-form/"].
Proof.
  rewrite (debug_ignores_app_id
             (step (ready_world "data.csv") (TypeAppId "12a"))
             {| name := "data.csv"; contents := "abc" |} [] eq_refl).
  reflexivity.
Defined.

Lemma upload_request_shape_witness :
  map (fun r => (url r, method r, map fst (body r)))
    (requests (step (ready_world "data.csv") Submit))
    = [("/upload-file/", "POST", ["product"; "version"; "app_id"; "file"])].
Proof.
  rewrite (upload_request_shape (ready_world "data.csv")
             {| name := "data.csv"; contents := "abc" |} []).
  - reflexivity.
  - reflexivity.
  - discriminate.
  - digits.
Defined.

(** *** Object URLs and the regions *)

Lemma object_urls_only_grow_witness :
  size (blob_urls (steps (ready_world "data.csv") successful_upload)) = 1.
Proof.
  exact (proj2 (proj2 (proj2
           (proj2 (object_urls_only_grow
                     (steps (ready_world "data.csv")
                        [Submit;
                         Settle 0 (FetchSettled (Fulfilled {| status := 200 |}))]))
              0 "xyz" eq_refl)))).
Defined.

(** After a second upload the link points at the new URL and the first one
    is still in the store. *)
Example second_upload_keeps_first_url :
  let w := steps (ready_world "data.csv")
             (successful_upload ++ successful_upload)%list in
  downloadLink_href (screen w) = ObjectURL 1
  /\ blob_urls w !! 0 = Some "xyz"
  /\ blob_urls w !! 1 = Some "xyz".
Proof. repeat split. Qed.

Lemma regions_reset_witness :
  let w := steps (ready_world "data.csv") (successful_upload ++ [DebugClick])%list in
  result_display (screen (step w (Settle 0 (FetchSettled (Rejected NetworkError)))))
    = result_display (screen w).
Proof.
  intros w. apply (proj2 (proj2 (regions_reset w))).
  left. vm_compute. reflexivity.
Defined.

Example result_stays_shown_during_debug :
  result_display
    (screen (steps (ready_world "data.csv")
               (successful_upload
                ++ [DebugClick; Settle 0 (FetchSettled (Rejected NetworkError))])%list))
    = "block".
Proof. vm_compute. reflexivity. Qed.

(** *** Failure paths and frames *)

Lemma upload_failure_report_witness :
  alerts (steps (ready_world "data.csv")
            [Submit; Settle 0 (FetchSettled (Rejected NetworkError))])
    = ["Network or unexpected error while uploading."].
Proof.
  destruct (proj1 (upload_failure_report
                     (step (ready_world "data.csv") Submit) 0 NetworkError)
              eq_refl)
    as ((_ & Halerts & _) & _).
  exact Halerts.
Defined.

Lemma selection_cleared_in_flight_witness :
  let w := steps (ready_world "data.csv")
             [Submit; Settle 0 (FetchSettled (Fulfilled {| status := 200 |}));
              ChooseFiles []] in
  let w' := step w (Settle 0 (BlobSettled (Fulfilled "xyz"))) in
  downloadLink_href (screen w') = ObjectURL (fresh (dom (blob_urls w)))
  /\ result_display (screen w') = result_display (screen w).
Proof.
  intros w w'.
  destruct (selection_cleared_in_flight w 0 "xyz") as (Hrep & _ & _ & Hhref).
  - vm_compute. reflexivity.
  - vm_compute. reflexivity.
  - destruct Hrep as (_ & _ & _ & Hres & _). split; [exact Hhref | exact Hres].
Defined.

Example cleared_selection_run :
  let w := steps (ready_world "data.csv")
             [Submit; Settle 0 (FetchSettled (Fulfilled {| status := 200 |}));
              ChooseFiles []; Settle 0 (BlobSettled (Fulfilled "xyz"))] in
  alerts w = ["Network or unexpected error while uploading."]
  /\ console w = [TypeError]
  /\ downloadLink_href (screen w) = ObjectURL 0
  /\ downloadLink_download (screen w) = ""
  /\ result_display (screen w) = "none".
Proof. vm_compute. repeat split. Qed.

Lemma download_name_follows_selection_witness :
  downloadLink_download (screen (steps (ready_world "data.csv") reselected_upload))
    = download_name "other.txt".
Proof.
  refine (proj1 (proj2 (download_name_follows_selection (ready_world "data.csv")
                   {| name := "data.csv"; contents := "abc" |}
                   {| name := "other.txt"; contents := "def" |} [] []
                   [ChooseFiles [{| name := "other.txt"; contents := "def" |}]] []
                   {| status := 200 |} "xyz" eq_refl _ _ eq_refl eq_refl
                   eq_refl _))).
  - discriminate.
  - digits.
  - vm_compute. reflexivity.
Defined.

Example reselected_upload_run :
  let w := steps (ready_world "data.csv") reselected_upload in
  downloadLink_download (screen w) = "other_processed.txt"
  /\ map (fun r => assoc "file" (body r)) (requests w)
     = [Some (Attached {| name := "data.csv"; contents := "abc" |})].
Proof. vm_compute. split; reflexivity. Qed.

Lemma refused_upload_report_witness :
  let w := steps (ready_world "data.csv")
             [Submit; Settle 0 (FetchSettled (Fulfilled {| status := 502 |}))] in
  console (step w (Settle 0 (JsonSettled (Rejected SyntaxError)))) = console w.
Proof.
  intros w.
  refine (proj1 (proj2 (refused_upload_report w 0 "Error: 502"
                          (Rejected SyntaxError) _))).
  vm_compute. reflexivity.
Defined.

Lemma handlers_never_throw_witness :
  exists c : completion,
    snd (upload_try (blob ← await (Fulfilled "xyz") ; upload_after_blob blob)
           idle_world)
    = Normal c.
Proof.
  exact (proj2 (proj2 (handlers_never_throw idle_world))
           upload_blob (BlobSettled (Fulfilled "xyz")) _ eq_refl).
Defined.

Lemma actions_keep_to_their_regions_witness :
  let w := step (ready_world "data.csv") DebugClick in
  alerts (step w (Settle 0 (FetchSettled (Rejected NetworkError)))) = alerts w.
Proof.
  intros w.
  refine (proj1 (proj1 (actions_keep_to_their_regions w 0
                          (FetchSettled (Rejected NetworkError))) _)).
  left. vm_compute. reflexivity.
Defined.

Lemma result_shown_only_by_success_witness :
  let w := steps (ready_world "data.csv")
             [Submit; Settle 0 (FetchSettled (Fulfilled {| status := 200 |}))] in
  exists (id : nat) (b : Blob) (f : File) (rest : list File),
    Settle (num:=Z) 0 (BlobSettled (Fulfilled "xyz"))
      = Settle id (BlobSettled (Fulfilled b))
    /\ suspended w !! id = Some upload_blob
    /\ fileInput_files (form w) = f :: rest.
Proof.
  intros w.
  apply (result_shown_only_by_success w (Settle 0 (BlobSettled (Fulfilled "xyz")))).
  - vm_compute. reflexivity.
  - vm_compute. discriminate.
Defined.

Lemma form_untouched_witness :
  form (step (ready_world "data.csv") Submit) = form (ready_world "data.csv").
Proof.
  apply (form_untouched (ready_world "data.csv") Submit).
  left. reflexivity.
Defined.

Lemma stopped_action_effects_witness :
  spinner_display (screen (step idle_world DebugClick))
    = spinner_display (screen idle_world).
Proof.
  refine (proj1 (proj2 (stopped_action_effects idle_world DebugClick _ _))).
  - reflexivity.
  - vm_compute. reflexivity.
Defined.

Example requests_of_repeated_actions :
  map url (requests (steps (ready_world "data.csv")
                       (overlapping_actions ++ overlapping_actions)%list))
    = ["/upload-file/"; "/debug-form/"; "/upload-file/"; "/debug-form/"].
Proof. vm_compute. reflexivity. Qed.
